(** * NewAccount.py: a bank account with a transaction log and a passbook writer

    A shallow embedding of [src/NewAccount.py] and the properties of its
    [Account] and [TransactionWriter] classes.

    Modelling conventions.
    - Amounts and balances are Python numbers: an [int] (arbitrary precision,
      [Z]) or a [float] (IEEE 754 binary64, as [spec_float] with the
      operations of [SpecFloat] at precision 53 and maximal exponent 1024:
      rounding to nearest even, signed zeros, infinities and NaN).  Mixed
      arithmetic converts the [int] to a [float] and raises [OverflowError]
      when it is too large; mixed comparisons are exact.
    - Methods mutate [self]; here each method takes the object and returns the
      updated object next to its outcome: the Python return value or the
      exception raised.
    - [datetime.datetime.now().strftime(...)] reads the clock; the formatted
      reading is an argument [now] of the methods that log.
    - [print] appends one line to the standard output, a [list string]. *)

From Stdlib Require Import PrimFloat SpecFloat FloatOps Ascii.
From stdpp Require Import base numbers list strings.

Open Scope Z_scope.

(** ** Python values and outcomes *)

(** A method without a [return] yields [None]; the comparison dunders that do
    return yield [True] or [False]. *)
Inductive pyval : Type :=
  | PyNone
  | PyBool (b : bool).

(** Truth value of a result, as [if], [not] and [bool()] take it. *)
Definition truthy (v : pyval) : bool :=
  match v with
  | PyNone => false
  | PyBool b => b
  end.

(** Outcome of a call: a returned value or a raised exception, named by its
    type. *)
Inductive result (A : Type) : Type :=
  | Return (a : A)
  | Raise (exc_type : string).
Arguments Return {A} a.
Arguments Raise {A} exc_type.

(** [print(a, b)]: the arguments separated by one space, one line. *)
Definition print2 (a b : string) (out : list string) : list string :=
  out ++ [a +:+ " " +:+ b].

Definition print1 (a : string) (out : list string) : list string :=
  out ++ [a].

(** ** Python numbers *)

Inductive num : Type :=
  | PyInt (z : Z)
  | PyFloat (f : spec_float).

(** A float literal of the source, from the machine float of that value. *)
Definition float_lit (f : float) : num := PyFloat (Prim2SF f).

(** [float(z)] as arithmetic does it for an [int] operand: the nearest
    binary64 value, ties to even; [OverflowError: int too large to convert to
    float] when that would be an infinity. *)
Definition float_of_int (z : Z) : result spec_float :=
  match binary_normalize prec emax z 0 false with
  | S754_infinity _ => Raise "OverflowError"
  | f => Return f
  end.

(** [a + b] *)
Definition py_add (a b : num) : result num :=
  match a, b with
  | PyInt x, PyInt y => Return (PyInt (x + y))
  | PyFloat x, PyFloat y => Return (PyFloat (SFadd prec emax x y))
  | PyFloat x, PyInt y =>
      match float_of_int y with
      | Return fy => Return (PyFloat (SFadd prec emax x fy))
      | Raise e => Raise e
      end
  | PyInt x, PyFloat y =>
      match float_of_int x with
      | Return fx => Return (PyFloat (SFadd prec emax fx y))
      | Raise e => Raise e
      end
  end.

(** [a - b] *)
Definition py_sub (a b : num) : result num :=
  match a, b with
  | PyInt x, PyInt y => Return (PyInt (x - y))
  | PyFloat x, PyFloat y => Return (PyFloat (SFsub prec emax x y))
  | PyFloat x, PyInt y =>
      match float_of_int y with
      | Return fy => Return (PyFloat (SFsub prec emax x fy))
      | Raise e => Raise e
      end
  | PyInt x, PyFloat y =>
      match float_of_int x with
      | Return fx => Return (PyFloat (SFsub prec emax fx y))
      | Raise e => Raise e
      end
  end.

(** [-a] *)
Definition py_neg (a : num) : num :=
  match a with
  | PyInt x => PyInt (- x)
  | PyFloat x => PyFloat (SFopp x)
  end.

(** Comparison of an [int] with a [float], on their exact values; [None] for
    a NaN. *)
Definition compare_int_float (z : Z) (f : spec_float) : option comparison :=
  match f with
  | S754_nan => None
  | S754_infinity s => Some (if s then Gt else Lt)
  | S754_zero _ => Some (z ?= 0)
  | S754_finite s m e =>
      let v := cond_Zopp s (Zpos m) in
      Some (if 0 <=? e then z ?= v * 2 ^ e else z * 2 ^ (- e) ?= v)
  end.

(** The order of two numbers; [None] when one of them is NaN. *)
Definition py_compare (a b : num) : option comparison :=
  match a, b with
  | PyInt x, PyInt y => Some (x ?= y)
  | PyFloat x, PyFloat y => SFcompare x y
  | PyInt x, PyFloat y => compare_int_float x y
  | PyFloat x, PyInt y => CompOpp <$> compare_int_float y x
  end.

(** [a < b], [a <= b], [a > b], [a >= b] *)
Definition py_lt (a b : num) : bool :=
  match py_compare a b with Some Lt => true | _ => false end.

Definition py_le (a b : num) : bool :=
  match py_compare a b with Some (Lt | Eq) => true | _ => false end.

Definition py_gt (a b : num) : bool :=
  match py_compare a b with Some Gt => true | _ => false end.

Definition py_ge (a b : num) : bool :=
  match py_compare a b with Some (Gt | Eq) => true | _ => false end.


Definition is_int (a : num) : bool :=
  match a with
  | PyInt _ => true
  | PyFloat _ => false
  end.

(** The value of an [int]; 0 for a [float]. *)
Definition int_of (a : num) : Z :=
  match a with
  | PyInt z => z
  | PyFloat _ => 0
  end.

(** ** Transaction records *)

(** One entry of [_transactions_log]: the 5-tuple
    [(kind, timestamp, balance before, signed amount, balance after)]. *)
Record txn : Type := Txn {
  kind : string;
  stamp : string;
  before : num;
  amount : num;
  after : num
}.

(** The two kind strings exactly as the source writes them (the debit one is
    padded with a space). *)
Definition CREDIT : string := "CREDIT".
Definition DEBIT : string := "DEBIT ".

(** ** The builtin [reversed] on a list *)

(** [reversed(l)] is an iterator holding an index that starts at [len(l) - 1];
    each [next] yields [l[index]] and decrements it, and the iterator is
    exhausted below [0].  [list(...)] drains it.  [reversed_from l n] is the
    drained remainder of an iterator whose index is [n - 1]. *)
Fixpoint reversed_from {A : Type} (l : list A) (n : nat) : list A :=
  match n with
  | O => []
  | S k =>
      match l !! k with
      | Some x => x :: reversed_from l k
      | None => []
      end
  end.

Definition list_reversed {A : Type} (l : list A) : list A :=
  reversed_from l (length l).

(** ** class Account *)

Module Account.

(** The instance attributes set by [__init__]. *)
Record t : Type := Build {
  _holders_name : string;
  _balance : num;
  _transactions_log : list txn;
  _acc_number : Z;
  pos : nat;
  max : nat
}.

(** The class attribute [Account.account_number] as the module is loaded. *)
Definition account_number : Z := 328710100001.

(** Default of the [balance] parameter of [__init__]: the float [500.00]. *)
Definition default_balance : num :=
  Eval vm_compute in float_lit 500%float.

(** [get_next_account_number()], reading the class attribute [cls]. *)
Definition get_next_account_number (cls : Z) : Z := cls + 1.

(** [__len__] *)
Definition __len__ (self : t) : nat := length (_transactions_log self).

(** [__init__(self, name, balance=500.00)]: returns the new object and the
    class attribute after the increment. *)
Definition __init__ (name : string) (balance : option num) (cls : Z) : t * Z :=
  let self := {| _holders_name := name;
                 _balance := default default_balance balance;
                 _transactions_log := [];
                 _acc_number := cls;
                 pos := 0%nat;
                 max := 0%nat |} in
  let self := {| _holders_name := _holders_name self;
                 _balance := _balance self;
                 _transactions_log := _transactions_log self;
                 _acc_number := _acc_number self;
                 pos := pos self;
                 max := __len__ self |} in
  (self, cls + 1).

(** Read-only properties. *)
Definition number (self : t) : Z := _acc_number self.
Definition name (self : t) : string := _holders_name self.
Definition balance (self : t) : num := _balance self.

(** Attribute updates used by the mutating methods. *)
Definition set_balance (self : t) (b : num) : t :=
  {| _holders_name := _holders_name self;
     _balance := b;
     _transactions_log := _transactions_log self;
     _acc_number := _acc_number self;
     pos := pos self;
     max := max self |}.

Definition log_append (self : t) (x : txn) : t :=
  {| _holders_name := _holders_name self;
     _balance := _balance self;
     _transactions_log := _transactions_log self ++ [x];
     _acc_number := _acc_number self;
     pos := pos self;
     max := max self |}.

(** [deposit(self, amount)].  The balance is updated first; the tuple is then
    built from the updated balance, left to right. *)
Definition deposit (self : t) (amount : num) (now : string)
    : t * result bool :=
  if py_le amount (PyInt 0) then (self, Return false)
  else
    match py_add (_balance self) amount with
    | Raise e => (self, Raise e)
    | Return b =>
        let self := set_balance self b in
        match py_sub (_balance self) amount with
        | Raise e => (self, Raise e)
        | Return b0 =>
            (log_append self (Txn CREDIT now b0 amount (_balance self)),
             Return true)
        end
    end.

(** [withdraw(self, amount)].  The difference is computed for the test and
    again for the update. *)
Definition withdraw (self : t) (amount : num) (now : string)
    : t * result bool :=
  match py_sub (_balance self) amount with
  | Raise e => (self, Raise e)
  | Return d =>
      if py_ge d (PyInt 0) then
        match py_sub (_balance self) amount with
        | Raise e => (self, Raise e)
        | Return b =>
            let self := set_balance self b in
            match py_add (_balance self) amount with
            | Raise e => (self, Raise e)
            | Return b0 =>
                (log_append self
                   (Txn DEBIT now b0 (py_neg amount) (_balance self)),
                 Return true)
            end
        end
      else (self, Return false)
  end.

(** [__iadd__] and [__isub__]: print, call the method, drop its result and
    return [self]; an exception of the method passes through. *)
Definition __iadd__ (self : t) (amount : num) (now : string)
    (out : list string) : t * list string * result unit :=
  let out := print1 "Depositing using dunder ..." out in
  match deposit self amount now with
  | (self, Return _) => (self, out, Return tt)
  | (self, Raise e) => (self, out, Raise e)
  end.

Definition __isub__ (self : t) (amount : num) (now : string)
    (out : list string) : t * list string * result unit :=
  let out := print1 "Withdrawing using dunder ..." out in
  match withdraw self amount now with
  | (self, Return _) => (self, out, Return tt)
  | (self, Raise e) => (self, out, Raise e)
  end.

(** [__lt__] and [__gt__] print a line and fall off the end: they return
    [None]. *)
Definition __lt__ (self other : t) (out : list string)
    : pyval * list string :=
  if py_lt (_balance self) (_balance other)
  then (PyNone, print2 (_holders_name self) "'s balance is lesser." out)
  else (PyNone, print2 (_holders_name other) "'s balance is lesser." out).

Definition __gt__ (self other : t) (out : list string)
    : pyval * list string :=
  if py_gt (_balance self) (_balance other)
  then (PyNone, print2 (_holders_name self) "'s balance is greater." out)
  else (PyNone, print2 (_holders_name other) "'s balance is greater." out).



Definition __eq__ (self other : t) : pyval :=
  if _acc_number self =? _acc_number other then PyBool true
  else PyBool false.

Definition __ne__ (self other : t) : pyval :=
  if negb (_acc_number self =? _acc_number other) then PyBool true
  else PyBool false.

(** [__getitem__] on a natural index; [None] stands for [IndexError]. *)
Definition __getitem__ (self : t) (i : nat) : option txn :=
  _transactions_log self !! i.

(** [__iter__] and [__next__]; [None] stands for [StopIteration]. *)
Definition __iter__ (self : t) : t :=
  {| _holders_name := _holders_name self;
     _balance := _balance self;
     _transactions_log := _transactions_log self;
     _acc_number := _acc_number self;
     pos := 0%nat;
     max := __len__ self |}.

Definition __next__ (self : t) : option (txn * t) :=
  if (max self <=? pos self)%nat then None
  else
    match _transactions_log self !! pos self with
    | Some x =>
        Some (x, {| _holders_name := _holders_name self;
                    _balance := _balance self;
                    _transactions_log := _transactions_log self;
                    _acc_number := _acc_number self;
                    pos := S (pos self);
                    max := max self |})
    | None => None
    end.

(** [__reversed__] *)
Definition __reversed__ (self : t) : list txn :=
  list_reversed (_transactions_log self).

(** *** Sequences of calls on one account *)

Inductive call : Type :=
  | Deposit (amount : num) (now : string)
  | Withdraw (amount : num) (now : string).

Definition do_call (self : t) (c : call) : t * result bool :=
  match c with
  | Deposit amount now => deposit self amount now
  | Withdraw amount now => withdraw self amount now
  end.

(** Runs the calls in order, each in a [try] that records its outcome;
    returns the object and the outcomes in the same order. *)
Fixpoint do_calls (self : t) (cs : list call) : t * list (result bool) :=
  match cs with
  | [] => (self, [])
  | c :: cs =>
      let '(self, r) := do_call self c in
      let '(self, rs) := do_calls self cs in
      (self, r :: rs)
  end.

End Account.

(** ** A process that constructs and uses accounts *)

(** The state a run of the module can reach: the class attribute
    [Account.account_number], the [Account] objects constructed so far in
    construction order, and the standard output.  An object is named by its
    position in [objects]. *)
Module Process.

Record t : Type := Build {
  account_number : Z;
  objects : list Account.t;
  stdout : list string
}.

(** The state once the class statement has run. *)
Definition start : t :=
  {| account_number := Account.account_number;
     objects := [];
     stdout := [] |}.

Inductive stmt : Type :=
  | New (name : string) (balance : option num)
  | CallDeposit (i : nat) (amount : num) (now : string)
  | CallWithdraw (i : nat) (amount : num) (now : string)
  | IAdd (i : nat) (amount : num) (now : string)
  | ISub (i : nat) (amount : num) (now : string)
  | Lt (i j : nat)
  | Gt (i j : nat).

(** One statement, in a [try] that drops its exception: the objects and the
    output are as the statement left them.  A statement that names an object
    never constructed cannot be written in a Python program; it is a no-op
    here. *)
Definition exec (p : t) (s : stmt) : t :=
  match s with
  | New name balance =>
      let '(a, cls) := Account.__init__ name balance (account_number p) in
      {| account_number := cls;
         objects := objects p ++ [a];
         stdout := stdout p |}
  | CallDeposit i amount now =>
      {| account_number := account_number p;
         objects :=
           alter (fun a => fst (Account.deposit a amount now)) i (objects p);
         stdout := stdout p |}
  | CallWithdraw i amount now =>
      {| account_number := account_number p;
         objects :=
           alter (fun a => fst (Account.withdraw a amount now)) i (objects p);
         stdout := stdout p |}
  | IAdd i amount now =>
      match objects p !! i with
      | Some a =>
          let '(a, out, _) := Account.__iadd__ a amount now (stdout p) in
          {| account_number := account_number p;
             objects := <[i := a]> (objects p);
             stdout := out |}
      | None => p
      end
  | ISub i amount now =>
      match objects p !! i with
      | Some a =>
          let '(a, out, _) := Account.__isub__ a amount now (stdout p) in
          {| account_number := account_number p;
             objects := <[i := a]> (objects p);
             stdout := out |}
      | None => p
      end
  | Lt i j =>
      match objects p !! i, objects p !! j with
      | Some a, Some b =>
          {| account_number := account_number p;
             objects := objects p;
             stdout := snd (Account.__lt__ a b (stdout p)) |}
      | _, _ => p
      end
  | Gt i j =>
      match objects p !! i, objects p !! j with
      | Some a, Some b =>
          {| account_number := account_number p;
             objects := objects p;
             stdout := snd (Account.__gt__ a b (stdout p)) |}
      | _, _ => p
      end
  end.

Definition run (p : t) (prog : list stmt) : t := foldl exec p prog.

End Process.

(** ** class TransactionWriter and the [with] statement *)

Module TransactionWriter.

(** A text file object as [open] makes it. *)
Record file_obj : Type := File {
  path : string;
  fmode : string;
  closed : bool;
  written : list string
}.

(** The outside world: every file object opened so far (a handle is a
    position in [files]), the standard output, which [(name, mode)] pairs
    [open] accepts, and the exception it raises for the others ([ValueError]
    for a mode that is not one, a subclass of [OSError] for a file it cannot
    open). *)
Record world : Type := World {
  files : list file_obj;
  stdout : list string;
  openable : string -> string -> bool;
  open_error : string -> string -> string
}.

Definition print (line : string) (w : world) : world :=
  {| files := files w; stdout := print1 line (stdout w);
     openable := openable w; open_error := open_error w |}.

Definition set_files (w : world) (fs : list file_obj) : world :=
  {| files := fs; stdout := stdout w;
     openable := openable w; open_error := open_error w |}.

(** The builtin [open(name, mode)]: a fresh open file object, or the
    exception of the world. *)
Definition py_open (name mode : string) (w : world) : world * result nat :=
  if openable w name mode then
    (set_files w (files w ++ [File name mode false []]),
     Return (length (files w)))
  else (w, Raise (open_error w name mode)).

Fixpoint has_char (c : Ascii.ascii) (s : string) : bool :=
  match s with
  | EmptyString => false
  | String c' s => if Ascii.eqb c c' then true else has_char c s
  end.

(** A file can be written when its mode holds one of [w], [a], [x], [+]. *)
Definition writable (mode : string) : bool :=
  has_char "w"%char mode || has_char "a"%char mode || has_char "x"%char mode
  || has_char "+"%char mode.

(** [f.close()]: closing a closed file is allowed and changes nothing. *)
Definition file_close (h : nat) (w : world) : world :=
  set_files w
    (alter (fun f => File (path f) (fmode f) true (written f)) h (files w)).

(** [f.write(s)]: [ValueError] on a closed file, [io.UnsupportedOperation] on
    a file that was not opened for writing. *)
Definition file_write (h : nat) (s : string) (w : world)
    : world * result unit :=
  match files w !! h with
  | Some f =>
      if closed f then (w, Raise "ValueError")
      else if writable (fmode f) then
        (set_files w
           (<[h := File (path f) (fmode f) false (written f ++ [s])]>
              (files w)),
         Return tt)
      else (w, Raise "io.UnsupportedOperation")
  | None => (w, Raise "ValueError")
  end.

(** What the body of a [with] block does with the value bound by [as]:
    [None] where the value is Python's [None]. *)
Inductive action : Type :=
  | Write (f : option nat) (s : string)
  | Close (f : option nat)
  | Print (s : string)
  | Throw (exc_type : string).

Definition run_action (a : action) (w : world) : world * result unit :=
  match a with
  | Write (Some h) s => file_write h s w
  | Write None _ => (w, Raise "AttributeError")
  | Close (Some h) => (file_close h w, Return tt)
  | Close None => (w, Raise "AttributeError")
  | Print s => (print s w, Return tt)
  | Throw e => (w, Raise e)
  end.

Fixpoint run_body (acts : list action) (w : world) : world * result unit :=
  match acts with
  | [] => (w, Return tt)
  | a :: acts =>
      match run_action a w with
      | (w, Return _) => run_body acts w
      | (w, Raise e) => (w, Raise e)
      end
  end.

(** The instance attributes. *)
Record t : Type := Build {
  file : option nat;
  file_name : string;
  file_mode : string
}.

Definition __init__ (name mode : string) : t :=
  {| file := None; file_name := name; file_mode := mode |}.

(** [__enter__]: returns [self.file]. *)
Definition __enter__ (self : t) (w : world)
    : t * world * result (option nat) :=
  match py_open (file_name self) (file_mode self) w with
  | (w, Return h) =>
      let self := {| file := Some h; file_name := file_name self;
                     file_mode := file_mode self |} in
      let w := print "File open successful!" w in
      (self, w, Return (file self))
  | (w, Raise e) => (self, w, Raise e)
  end.

(** [__exit__(self, exc_type, exc_value, exc_tb)]: [exc_type] is [None] when
    the block ended without an exception.  No [return]: the result is
    [None]. *)
Definition __exit__ (self : t) (exc_type : option string) (w : world)
    : world * result pyval :=
  match exc_type with
  | None =>
      match file self with
      | Some h =>
          let w := file_close h w in
          let w := print "File close successful!" w in
          (w, Return PyNone)
      | None => (w, Raise "AttributeError")
      end
  | Some e =>
      (print ("Something went wrong! " +:+ " " +:+ "<class '" +:+ e +:+ "'>") w,
       Return PyNone)
  end.

(** [with TransactionWriter(name, mode) as value: body].  The statement
    calls [__enter__], binds its result, runs the body, and calls
    [__exit__] with the exception of the body if there is one; that
    exception is raised again unless [__exit__] returns a true value. *)
Definition with_ (name mode : string) (body : option nat -> list action)
    (w : world) : world * result unit :=
  let mgr := __init__ name mode in
  match __enter__ mgr w with
  | (mgr, w, Return value) =>
      match run_body (body value) w with
      | (w, Return _) =>
          match __exit__ mgr None w with
          | (w, Return _) => (w, Return tt)
          | (w, Raise e) => (w, Raise e)
          end
      | (w, Raise e) =>
          match __exit__ mgr (Some e) w with
          | (w, Return v) =>
              if truthy v then (w, Return tt) else (w, Raise e)
          | (w, Raise e') => (w, Raise e')
          end
      end
  | (_, w, Raise e) => (w, Raise e)
  end.

(** Whether handle [h] is closed in [w]; [None] if there is no such file
    object. *)
Definition is_closed (h : nat) (w : world) : option bool :=
  closed <$> files w !! h.

End TransactionWriter.

(** ** The [for] statement over an account *)

Module Iteration.

Import Account.

(** How a loop ended: [__next__] raised [StopIteration], or the list access
    inside it raised [IndexError]. *)
Inductive ended : Type :=
  | Exhausted
  | IndexError.

(** The loop of [for x in self: body] once [iter(self)] has been called: the
    iterator is the account itself, so [next] reads and advances [pos] of the
    object the body may also use.  The body takes the yielded record and the
    object and returns the object.  [None]: out of fuel. *)
Fixpoint loop (fuel : nat) (body : txn -> t -> t) (self : t)
    : option (list txn * t * ended) :=
  match fuel with
  | O => None
  | S fuel =>
      match __next__ self with
      | None =>
          Some ([], self,
                if (max self <=? pos self)%nat then Exhausted else IndexError)
      | Some (x, self) =>
          match loop fuel body (body x self) with
          | Some (xs, self, e) => Some (x :: xs, self, e)
          | None => None
          end
      end
  end.

(** [for x in self: body] *)
Definition for_in (fuel : nat) (body : txn -> t -> t) (self : t)
    : option (list txn * t * ended) :=
  loop fuel body (__iter__ self).

(** A body that does nothing ([pass], or one that only reads the record). *)
Definition pass (x : txn) (self : t) : t := self.

(** A body that is itself [for y in self: pass] on the same account; the
    account comes back as the inner loop leaves it (unchanged if the inner
    loop runs out of fuel). *)
Definition inner_loop (fuel : nat) (x : txn) (self : t) : t :=
  match for_in fuel pass self with
  | Some (_, self, _) => self
  | None => self
  end.

(** A body that makes calls chosen from the yielded record on the same
    account. *)
Definition calls_body (f : txn -> list call) (x : txn) (self : t) : t :=
  fst (do_calls self (f x)).

(** The records [for txn in self] yields with a body that leaves the account
    alone, as the loops of the driver do. *)
Definition yielded (self : t) : list txn :=
  match for_in (S (__len__ self)) pass self with
  | Some (xs, _, _) => xs
  | None => []
  end.

End Iteration.

(** ** Indexing with a Python [int] *)

(** [self._transactions_log[pos]] for an [int]: a negative index counts from
    the end, and an index outside [-len .. len - 1] raises [IndexError]
    ([None]). *)
Definition getitem_int (self : Account.t) (pos : Z) : option txn :=
  let n := Z.of_nat (length (Account._transactions_log self)) in
  let i := if pos <? 0 then pos + n else pos in
  if (i <? 0) || (n <=? i) then None
  else Account._transactions_log self !! Z.to_nat i.

(** ** Writing the passbook *)

Module Passbook.

Import TransactionWriter.

Definition newline : string := String (Ascii.ascii_of_nat 10) EmptyString.

(** The body of the driver's [with] block: for each record yielded by the
    account, [passbook.write(str(txn))] and [passbook.write('\n')].  [str_txn]
    is [str] on the 5-tuple. *)
Definition body (str_txn : txn -> string) (a : Account.t) (f : option nat)
    : list action :=
  flat_map (fun x => [Write f (str_txn x); Write f newline])
    (Iteration.yielded a).


End Passbook.

(** ** Vocabulary of the statements *)

Module Spec.

Import Account.

(** A call was accepted: it returned [True]. *)
Definition accepted (r : result bool) : bool :=
  match r with
  | Return true => true
  | _ => false
  end.

(** The signed amount a call logs, its kind, and what it does to the
    balance when it is accepted. *)
Definition signed (c : call) : num :=
  match c with
  | Deposit a _ => a
  | Withdraw a _ => py_neg a
  end.

Definition kind_of (c : call) : string :=
  match c with
  | Deposit _ _ => CREDIT
  | Withdraw _ _ => DEBIT
  end.

Definition apply_call (c : call) (b : num) : result num :=
  match c with
  | Deposit a _ => py_add b a
  | Withdraw a _ => py_sub b a
  end.

(** The balance [b] after the calls [cs] whose outcomes were [rs]: each
    accepted deposit adds its amount, each accepted withdrawal subtracts its
    amount, in call order; the other calls leave the balance. *)
Fixpoint replay (b : num) (cs : list call) (rs : list (result bool)) : num :=
  match cs, rs with
  | c :: cs, r :: rs =>
      if accepted r then
        match apply_call c b with
        | Return b' => replay b' cs rs
        | Raise _ => replay b cs rs
        end
      else replay b cs rs
  | _, _ => b
  end.

(** The accepted ones among the calls [cs] with outcomes [rs]. *)
Fixpoint accepted_calls (cs : list call) (rs : list (result bool))
    : list call :=
  match cs, rs with
  | c :: cs, r :: rs =>
      if accepted r then c :: accepted_calls cs rs else accepted_calls cs rs
  | _, _ => []
  end.

(** [sum(l, acc)] *)
Fixpoint py_sum (acc : num) (l : list num) : result num :=
  match l with
  | [] => Return acc
  | x :: l =>
      match py_add acc x with
      | Return acc => py_sum acc l
      | Raise e => Raise e
      end
  end.

(** The balance as the claim computes it: the initial balance plus the sum of
    the signed amounts of the log. *)
Definition claimed_balance (initial : num) (log : list txn) : result num :=
  match py_sum (PyInt 0) (amount <$> log) with
  | Return s => py_add initial s
  | Raise e => Raise e
  end.

(** Sum of the signed amounts of a log of [int] amounts. *)
Definition int_total (log : list txn) : Z :=
  foldr (fun x acc => int_of (amount x) + acc) 0 log.

Definition int_call (c : call) : bool :=
  match c with
  | Deposit a _ => is_int a
  | Withdraw a _ => is_int a
  end.

(** One call on balance [b], on the balance alone: the new balance and the
    record appended when the call is accepted. *)
Definition step (c : call) (b : num) : option (num * txn) :=
  match c with
  | Deposit a now =>
      if py_le a (PyInt 0) then None
      else
        match py_add b a with
        | Return b' =>
            match py_sub b' a with
            | Return b0 => Some (b', Txn CREDIT now b0 a b')
            | Raise _ => None
            end
        | Raise _ => None
        end
  | Withdraw a now =>
      match py_sub b a with
      | Return b' =>
          if py_ge b' (PyInt 0) then
            match py_add b' a with
            | Return b0 => Some (b', Txn DEBIT now b0 (py_neg a) b')
            | Raise _ => None
            end
          else None
      | Raise _ => None
      end
  end.

Fixpoint steps (cs : list call) (b : num) : num * list txn :=
  match cs with
  | [] => (b, [])
  | c :: cs =>
      match step c b with
      | Some (b', x) => let '(bf, xs) := steps cs b' in (bf, x :: xs)
      | None => steps cs b
      end
  end.

(** The account with balance [b] and the records [new] appended. *)
Definition booked (self : t) (b : num) (new : list txn) : t :=
  {| _holders_name := _holders_name self;
     _balance := b;
     _transactions_log := _transactions_log self ++ new;
     _acc_number := _acc_number self;
     pos := pos self;
     max := max self |}.


(** Invariant of a process: the class attribute is its initial value plus the
    number of objects constructed, and the object constructed [i]-th (from 0)
    holds the initial value plus [i]. *)
Definition numbered (p : Process.t) : Prop :=
  Process.account_number p
    = account_number + Z.of_nat (length (Process.objects p))
  /\ forall (i : nat) (a : t),
       Process.objects p !! i = Some a ->
       _acc_number a = account_number + Z.of_nat i.

(** The world in which the body of the [with] block starts when [open]
    succeeds: the new file object is in place and [__enter__] has printed. *)
Definition entered (name mode : string) (w : TransactionWriter.world)
    : TransactionWriter.world :=
  TransactionWriter.print "File open successful!"
    (TransactionWriter.set_files w
       (TransactionWriter.files w
          ++ [TransactionWriter.File name mode false []])).

(** A log of exact arithmetic that starts on balance [b]: each record's
    balance-before is the balance-after of the record before it ([b] for the
    first), and its balance-after is its balance-before plus its signed
    amount. *)
Fixpoint chain_from (b : num) (log : list txn) : Prop :=
  match log with
  | [] => True
  | x :: log =>
      before x = b /\ py_add b (amount x) = Return (after x)
      /\ chain_from (after x) log
  end.

(** The balance-after of the last record, [b] for an empty log. *)
Definition closing_balance (b : num) (log : list txn) : num :=
  foldl (fun _ x => after x) b log.

(** The account with its iteration attributes set to [p] and [m]. *)
Definition positioned (self : t) (p m : nat) : t :=
  {| _holders_name := _holders_name self;
     _balance := _balance self;
     _transactions_log := _transactions_log self;
     _acc_number := _acc_number self;
     pos := p;
     max := m |}.

(** Number of [Account(...)] statements of a program. *)
Fixpoint constructions (prog : list Process.stmt) : nat :=
  match prog with
  | [] => O
  | Process.New _ _ :: prog => S (constructions prog)
  | _ :: prog => constructions prog
  end.

(** The float literals used below, as Python writes them. *)
Definition f0_1 : num := Eval vm_compute in float_lit 0x1.999999999999ap-4%float.
Definition f0_2 : num := Eval vm_compute in float_lit 0x1.999999999999ap-3%float.
Definition f0_3 : num := Eval vm_compute in float_lit 0x1.3333333333333p-2%float.
Definition f500 : num := Eval vm_compute in float_lit 500%float.
Definition f5000 : num := Eval vm_compute in float_lit 5000%float.
Definition f6500 : num := Eval vm_compute in float_lit 6500%float.
Definition f10000 : num := Eval vm_compute in float_lit 10000%float.
Definition f3000 : num := Eval vm_compute in float_lit 3000%float.
Definition f2000 : num := Eval vm_compute in float_lit 2000%float.
Definition f1000 : num := Eval vm_compute in float_lit 1000%float.
Definition f100 : num := Eval vm_compute in float_lit 100%float.
Definition tiny_negative : num := Eval vm_compute in float_lit (-0x1p-70)%float.
Definition nan : num := PyFloat S754_nan.

End Spec.

(** * Properties *)

Import Account Spec.

(** Closed goals on concrete numbers are settled by evaluation. *)
Ltac computed := vm_compute; reflexivity.

(** ** Numbers *)

Lemma py_add_then_sub (b a b' : num) :
  py_add b a = Return b' -> exists b0 : num, py_sub b' a = Return b0.
Proof.
  destruct b as [x | x], a as [y | y]; cbn.
  - intros [= <-]. by eexists.
  - destruct (float_of_int x); intros [= <-]. by eexists.
  - destruct (float_of_int y) eqn:E; intros [= <-]. cbn. rewrite E.
    by eexists.
  - intros [= <-]. by eexists.
Qed.

Lemma py_sub_then_add (b a b' : num) :
  py_sub b a = Return b' -> exists b0 : num, py_add b' a = Return b0.
Proof.
  destruct b as [x | x], a as [y | y]; cbn.
  - intros [= <-]. by eexists.
  - destruct (float_of_int x); intros [= <-]. by eexists.
  - destruct (float_of_int y) eqn:E; intros [= <-]. cbn. rewrite E.
    by eexists.
  - intros [= <-]. by eexists.
Qed.










(** ** One call of [deposit] or [withdraw] *)

Lemma deposit_rejected (self : t) (amount : num) (now : string) :
  py_le amount (PyInt 0) = true -> deposit self amount now = (self, Return false).
Proof. intros H. unfold deposit. by rewrite H. Qed.

Lemma deposit_raises (self : t) (amount : num) (now : string) (e : string) :
  py_le amount (PyInt 0) = false ->
  py_add (_balance self) amount = Raise e ->
  deposit self amount now = (self, Raise e).
Proof. intros H E. unfold deposit. by rewrite H, E. Qed.

Lemma deposit_accepted (self : t) (amount : num) (now : string) (b : num) :
  py_le amount (PyInt 0) = false ->
  py_add (_balance self) amount = Return b ->
  exists b0 : num,
    py_sub b amount = Return b0
    /\ deposit self amount now
       = (booked self b [Txn CREDIT now b0 amount b], Return true).
Proof.
  intros H E. destruct (py_add_then_sub _ _ _ E) as [b0 E0].
  exists b0. split; [done |]. unfold deposit. rewrite H, E. cbn.
  by rewrite E0.
Qed.

Lemma withdraw_raises (self : t) (amount : num) (now : string) (e : string) :
  py_sub (_balance self) amount = Raise e ->
  withdraw self amount now = (self, Raise e).
Proof. intros E. unfold withdraw. by rewrite E. Qed.

Lemma withdraw_rejected (self : t) (amount : num) (now : string) (d : num) :
  py_sub (_balance self) amount = Return d ->
  py_ge d (PyInt 0) = false ->
  withdraw self amount now = (self, Return false).
Proof. intros E H. unfold withdraw. by rewrite E, H. Qed.

Lemma withdraw_accepted (self : t) (amount : num) (now : string) (d : num) :
  py_sub (_balance self) amount = Return d ->
  py_ge d (PyInt 0) = true ->
  exists b0 : num,
    py_add d amount = Return b0
    /\ withdraw self amount now
       = (booked self d [Txn DEBIT now b0 (py_neg amount) d], Return true).
Proof.
  intros E H. destruct (py_sub_then_add _ _ _ E) as [b0 E0].
  exists b0. split; [done |]. unfold withdraw. rewrite E, H. cbn.
  by rewrite E0.
Qed.

Lemma booked_nil (self : t) : booked self (_balance self) [] = self.
Proof. unfold booked. rewrite app_nil_r. by destruct self. Qed.

(** Whatever the call, the object changes as the step on its balance says,
    and the call is accepted exactly when there is such a step. *)
Lemma do_call_step (self : t) (c : call) :
  match step c (_balance self) with
  | Some (b, x) =>
      do_call self c = (booked self b [x], Return true)
  | None =>
      fst (do_call self c) = self /\ accepted (snd (do_call self c)) = false
  end.
Proof.
  destruct c as [a now | a now]; cbn.
  - destruct (py_le a (PyInt 0)) eqn:H.
    { by rewrite deposit_rejected. }
    destruct (py_add (_balance self) a) as [b | e] eqn:E.
    + destruct (deposit_accepted self a now b H E) as (b0 & E0 & ->).
      by rewrite E0.
    + by rewrite (deposit_raises self a now e).
  - destruct (py_sub (_balance self) a) as [d | e] eqn:E.
    + destruct (py_ge d (PyInt 0)) eqn:H.
      * destruct (withdraw_accepted self a now d E H) as (b0 & E0 & ->).
        by rewrite E0.
      * by rewrite (withdraw_rejected self a now d).
    + by rewrite (withdraw_raises self a now e).
Qed.

Lemma step_Some (c : call) (b b' : num) (x : txn) :
  step c b = Some (b', x) ->
  apply_call c b = Return b'
  /\ kind x = kind_of c /\ amount x = signed c /\ after x = b'
  /\ match c with
     | Deposit a now =>
         py_le a (PyInt 0) = false /\ py_sub b' a = Return (before x)
         /\ stamp x = now
     | Withdraw a now =>
         py_ge b' (PyInt 0) = true /\ py_add b' a = Return (before x)
         /\ stamp x = now
     end.
Proof.
  destruct c as [a now | a now]; cbn.
  - destruct (py_le a (PyInt 0)); [done |].
    destruct (py_add b a) as [b1 |]; [| done].
    destruct (py_sub b1 a) as [b0 |] eqn:E; [| done].
    intros [= <- <-]. cbn. by rewrite E.
  - destruct (py_sub b a) as [b1 |]; [| done].
    destruct (py_ge b1 (PyInt 0)) eqn:H; [| done].
    destruct (py_add b1 a) as [b0 |] eqn:E; [| done].
    intros [= <- <-]. cbn. by rewrite E.
Qed.







(** C4, as stated, fails: withdrawing -2^-70 from a balance of 500.0 is
    accepted, but the balance stays 500.0: it does not increase. *)
Lemma withdraw_tiny_counterexample :
  let self := fst (__init__ "Meghna" None account_number) in
  let self' := fst (withdraw self tiny_negative "t1") in
  py_lt tiny_negative (PyInt 0) = true
  /\ py_le tiny_negative (PyInt 0) = true
  /\ snd (withdraw self tiny_negative "t1") = Return true
  /\ _balance self' = _balance self
  /\ py_lt (_balance self) (_balance self') = false.
Proof.
  cbn zeta.
  split; [computed |]. split; [computed |]. split; [computed |].
  split; computed.
Qed.

(** C4, amended.  [withdraw] does not look at the sign of the amount: with
    [a <= 0] and [b - a >= 0] on balance [b] it returns [True], the balance
    becomes [b - a], and a DEBIT record with signed amount [-a] and the new
    balance as balance-after is appended.  When [b] and [a] are [int]s the
    new balance is [b + |a|], not below [b], and above it when [a < 0]. *)
Theorem withdraw_nonpositive (self : t) (a : num) (now : string) (d : num) :
  py_le a (PyInt 0) = true ->
  py_sub (_balance self) a = Return d ->
  py_ge d (PyInt 0) = true ->
  let self' := fst (withdraw self a now) in
  snd (withdraw self a now) = Return true
  /\ _balance self' = d
  /\ (exists x : txn,
        _transactions_log self' = _transactions_log self ++ [x]
        /\ kind x = DEBIT /\ amount x = py_neg a /\ after x = d)
  /\ (is_int (_balance self) = true -> is_int a = true ->
      d = PyInt (int_of (_balance self) + Z.abs (int_of a))
      /\ int_of (_balance self) <= int_of d
      /\ (int_of a < 0 -> int_of (_balance self) < int_of d)).
Proof.
  intros Ha E H. cbn zeta.
  destruct (withdraw_accepted self a now d E H) as (b0 & E0 & ->).
  cbn. split; [done |]. split; [done |]. split.
  - eexists. split; [done |]. done.
  - intros Hb Hi. destruct (_balance self) as [x |], a as [y |]; try done.
    cbn in E. injection E as <-.
    assert (y <= 0).
    { unfold py_le in Ha. cbn in Ha.
      destruct (Z.compare_spec y 0); try done; lia. }
    cbn. split; [f_equal |]; lia.
Qed.

Lemma withdraw_nonpositive_witness :
  snd (withdraw (fst (__init__ "Meghna" None account_number))
         (float_lit (-100)%float) "t4") = Return true
  /\ _balance
       (fst (withdraw (fst (__init__ "Meghna" None account_number))
               (float_lit (-100)%float) "t4")) = float_lit 600%float.
Proof.
  pose proof (withdraw_nonpositive
                (fst (__init__ "Meghna" None account_number))
                (float_lit (-100)%float) "t4" (float_lit 600%float)
                ltac:(computed) ltac:(computed) ltac:(computed))
    as (H1 & H2 & _).
  split; [exact H1 | exact H2].
Defined.

(** ** Sequences of calls *)

Lemma do_calls_cons (self : t) (c : call) (cs : list call) :
  fst (do_calls self (c :: cs)) = fst (do_calls (fst (do_call self c)) cs)
  /\ snd (do_calls self (c :: cs))
     = snd (do_call self c) :: snd (do_calls (fst (do_call self c)) cs).
Proof.
  cbn. destruct (do_call self c) as [self1 r]. cbn.
  destruct (do_calls self1 cs) as [self2 rs]. done.
Qed.

Lemma booked_booked (self : t) (b1 b2 : num) (l1 l2 : list txn) :
  booked (booked self b1 l1) b2 l2 = booked self b2 (l1 ++ l2).
Proof. unfold booked. cbn. by rewrite app_assoc. Qed.

(** A run of calls changes the balance and the log as the steps on the
    balance say, and nothing else. *)
Lemma do_calls_steps (cs : list call) :
  forall self : t,
    fst (do_calls self cs)
    = booked self (fst (steps cs (_balance self)))
        (snd (steps cs (_balance self)))
    /\ length (snd (do_calls self cs)) = length cs.
Proof.
  induction cs as [| c cs IH]; intros self.
  - cbn. by rewrite booked_nil.
  - destruct (do_calls_cons self c cs) as [-> ->].
    pose proof (do_call_step self c) as Hc. cbn [steps length].
    destruct (step c (_balance self)) as [[b x] |].
    + rewrite Hc. cbn [fst snd]. destruct (IH (booked self b [x])) as [-> ->].
      cbn [_balance booked].
      destruct (steps cs b) as [bf xs]. cbn [fst snd].
      by rewrite booked_booked.
    + destruct Hc as [-> _]. destruct (IH self) as [-> ->]. done.
Qed.

(** The outcomes of a run, against the steps on the balance. *)
Lemma steps_replay (cs : list call) :
  forall self : t,
    let rs := snd (do_calls self cs) in
    fst (steps cs (_balance self)) = replay (_balance self) cs rs
    /\ amount <$> snd (steps cs (_balance self))
       = signed <$> accepted_calls cs rs
    /\ kind <$> snd (steps cs (_balance self))
       = kind_of <$> accepted_calls cs rs
    /\ length (snd (steps cs (_balance self)))
       = length (filter (fun r => accepted r = true) rs).
Proof.
  induction cs as [| c cs IH]; intros self; cbn zeta; [done |].
  destruct (do_calls_cons self c cs) as [_ ->].
  pose proof (do_call_step self c) as Hc.
  cbn [steps replay accepted_calls].
  destruct (step c (_balance self)) as [[b x] |] eqn:Es.
  - rewrite Hc. cbn [fst snd accepted].
    destruct (step_Some c _ _ _ Es) as (Ea & Ek & Eam & _).
    rewrite Ea. specialize (IH (booked self b [x])). cbn zeta in IH.
    cbn [_balance booked] in IH. destruct IH as (IH1 & IH2 & IH3 & IH4).
    destruct (steps cs b) as [bf xs]. cbn [fst snd] in *.
    rewrite filter_cons_True by done. cbn.
    rewrite IH1, IH2, IH3, IH4, Ek, Eam. done.
  - destruct Hc as [Hs Hr]. rewrite Hr, Hs.
    rewrite filter_cons_False by (by rewrite Hr).
    apply (IH self).
Qed.

(** In exact arithmetic the steps add the signed amounts. *)
Lemma steps_int (cs : list call) :
  forall z : Z,
    Forall (fun c => int_call c = true) cs ->
    fst (steps cs (PyInt z)) = PyInt (z + int_total (snd (steps cs (PyInt z))))
    /\ Forall (fun x => is_int (amount x) = true) (snd (steps cs (PyInt z)))
    /\ chain_from (PyInt z) (snd (steps cs (PyInt z)))
    /\ closing_balance (PyInt z) (snd (steps cs (PyInt z)))
       = fst (steps cs (PyInt z)).
Proof.
  induction cs as [| c cs IH]; intros z Hcs.
  - cbn. split; [f_equal; lia | done].
  - apply Forall_cons in Hcs as [Hc Hcs]. cbn [steps].
    destruct (step c (PyInt z)) as [[b x] |] eqn:Es; [| by apply IH].
    destruct (step_Some c _ _ _ Es) as (Ea & Ek & Eam & Eaf & Hb).
    assert (Hx : b = PyInt (z + int_of (amount x))
                 /\ is_int (amount x) = true /\ before x = PyInt z
                 /\ py_add (PyInt z) (amount x) = Return (after x)).
    { rewrite Eam, Eaf.
      destruct c as [[y |] now | [y |] now]; try done; cbn in Ea, Hb |- *;
        injection Ea as <-; destruct Hb as (_ & Hb & _);
        cbn in Hb; injection Hb as Hb; rewrite <- Hb;
        repeat split; try (f_equal; f_equal); try lia. }
    destruct Hx as (-> & Hi & Hbx & Hadd).
    destruct (IH (z + int_of (amount x)) Hcs) as (IH1 & IH2 & IH3 & IH4).
    destruct (steps cs (PyInt (z + int_of (amount x)))) as [bf xs].
    cbn [fst snd] in *. subst bf.
    split; [unfold int_total; cbn; f_equal; lia |]. split; [by constructor |].
    rewrite <- Eaf in IH3. split; [by cbn |].
    unfold closing_balance in *. cbn [foldl]. by rewrite Eaf.
Qed.

(** C1, as stated, fails: an account opened with 0.1 that takes deposits of
    0.2 and 0.3 holds 0.6000000000000001, while its initial balance plus the
    sum of the signed amounts in its log is 0.6. *)
Lemma balance_sum_counterexample :
  let a0 := fst (__init__ "Guido" (Some f0_1) account_number) in
  let a := fst (do_calls a0 [Deposit f0_2 "t1"; Deposit f0_3 "t2"]) in
  snd (do_calls a0 [Deposit f0_2 "t1"; Deposit f0_3 "t2"])
    = [Return true; Return true]
  /\ (amount <$> _transactions_log a) = [f0_2; f0_3]
  /\ _balance a = float_lit 0x1.3333333333334p-1%float
  /\ claimed_balance (_balance a0) (_transactions_log a)
     = Return (float_lit 0x1.3333333333333p-1%float)
  /\ claimed_balance (_balance a0) (_transactions_log a)
     <> Return (_balance a)
  /\ py_compare (_balance a) (float_lit 0x1.3333333333333p-1%float)
     = Some Gt.
Proof.
  cbn zeta.
  split; [computed |]. split; [computed |]. split; [computed |].
  split; [computed |]. split; [vm_compute; discriminate | computed].
Qed.

(** C1, amended.  After any finite sequence of [deposit] and [withdraw] calls
    with arbitrary amounts, the balance is the balance at the start with the
    amount of each accepted deposit added and the amount of each accepted
    withdrawal subtracted, one call at a time in call order, in Python
    arithmetic; a call that returns [False] or raises contributes nothing.
    The log is the old log followed by one record per accepted call, in call
    order, a CREDIT record carrying [+amount] or a DEBIT record carrying
    [-amount].  When the balance at the start and all amounts are [int]s the
    balance is the balance at the start plus the sum of the signed amounts of
    the appended records; for an account as [__init__] makes it, these are
    all the records of its log. *)
Theorem balance_follows_log (self : t) (cs : list call) :
  let self' := fst (do_calls self cs) in
  let rs := snd (do_calls self cs) in
  length rs = length cs
  /\ _balance self' = replay (_balance self) cs rs
  /\ (exists new : list txn,
        _transactions_log self' = _transactions_log self ++ new
        /\ amount <$> new = signed <$> accepted_calls cs rs
        /\ kind <$> new = kind_of <$> accepted_calls cs rs
        /\ length new = length (filter (fun r => accepted r = true) rs)
        /\ (is_int (_balance self) = true ->
            Forall (fun c => int_call c = true) cs ->
            _balance self'
            = PyInt (int_of (_balance self) + int_total new)))
  /\ (forall (name : string) (initial : option num) (cls : Z),
        self = fst (__init__ name initial cls) ->
        is_int (default default_balance initial) = true ->
        Forall (fun c => int_call c = true) cs ->
        _balance self'
        = PyInt (int_of (default default_balance initial)
                 + int_total (_transactions_log self'))).
Proof.
  cbn zeta. destruct (do_calls_steps cs self) as [E Hlen].
  destruct (steps_replay cs self) as (H1 & H2 & H3 & H4). cbn zeta in *.
  rewrite E. cbn [_balance _transactions_log booked].
  split; [done |]. split; [done |].
  assert (Hint : is_int (_balance self) = true ->
                 Forall (fun c => int_call c = true) cs ->
                 fst (steps cs (_balance self))
                 = PyInt (int_of (_balance self)
                          + int_total (snd (steps cs (_balance self))))).
  { intros Hb Hcs. destruct (_balance self) as [z |]; [| done].
    by destruct (steps_int cs z Hcs) as [-> _]. }
  split.
  - eexists. split; [done |]. done.
  - intros name initial cls -> Hb Hcs. cbn in *. by apply Hint.
Qed.

Lemma balance_follows_log_witness :
  let a0 := fst (__init__ "Guido" (Some (PyInt 10000)) account_number) in
  let cs := [Deposit (PyInt 500) "t1"; Withdraw (PyInt 3000) "t2";
             Deposit (PyInt (-7)) "t3"; Deposit (PyInt 1000) "t4";
             Withdraw (PyInt 2000) "t5"; Withdraw (PyInt 100000) "t6"] in
  _balance (fst (do_calls a0 cs))
    = PyInt (10000 + int_total (_transactions_log (fst (do_calls a0 cs))))
  /\ _balance (fst (do_calls a0 cs)) = PyInt 6500
  /\ length (_transactions_log (fst (do_calls a0 cs))) = 4%nat.
Proof.
  cbn zeta. split; [| split; computed].
  pose proof (balance_follows_log
                (fst (__init__ "Guido" (Some (PyInt 10000)) account_number))
                [Deposit (PyInt 500) "t1"; Withdraw (PyInt 3000) "t2";
                 Deposit (PyInt (-7)) "t3"; Deposit (PyInt 1000) "t4";
                 Withdraw (PyInt 2000) "t5"; Withdraw (PyInt 100000) "t6"])
    as (_ & _ & _ & H).
  apply (H "Guido" (Some (PyInt 10000)) account_number).
  - reflexivity.
  - reflexivity.
  - repeat constructor.
Defined.

(** ** The reversed log *)

(** Draining the reverse iterator from index [n - 1] gives the first [n]
    elements, last first. *)
Lemma reversed_from_take {A : Type} (l : list A) (n : nat) :
  (n <= length l)%nat -> reversed_from l n = reverse (take n l).
Proof.
  induction n as [| k IH]; intros Hn; cbn [reversed_from].
  - by rewrite take_0.
  - destruct (lookup_lt_is_Some_2 l k) as [x Hx]; [lia |].
    rewrite Hx, (take_S_r l k x Hx), reverse_snoc, IH by lia. done.
Qed.

Lemma list_reversed_reverse {A : Type} (l : list A) :
  list_reversed l = reverse l.
Proof.
  unfold list_reversed. rewrite reversed_from_take by lia.
  by rewrite firstn_all.
Qed.

(** C7.  [__reversed__] returns the log in reverse order: the result has the
    length [n] of the log, its element [i] is element [n - 1 - i] of the log
    for every [i < n], and reversing the result again gives the log back. *)
Theorem reversed_log (self : t) :
  let n := length (_transactions_log self) in
  length (__reversed__ self) = n
  /\ (forall i : nat,
        (i < n)%nat ->
        __reversed__ self !! i = _transactions_log self !! (n - 1 - i)%nat)
  /\ list_reversed (__reversed__ self) = _transactions_log self.
Proof.
  unfold __reversed__. cbn zeta. rewrite !list_reversed_reverse.
  split; [apply length_reverse |]. split.
  - intros i Hi. rewrite reverse_lookup by done. f_equal. lia.
  - apply reverse_involutive.
Qed.

Lemma reversed_log_witness :
  let a := fst (do_calls (fst (__init__ "Guido" (Some f10000) account_number))
                  [Deposit f500 "t1"; Withdraw f3000 "t2";
                   Deposit f1000 "t3"]) in
  __reversed__ a !! 0%nat = _transactions_log a !! 2%nat
  /\ (amount <$> __reversed__ a) = [f1000; py_neg f3000; f500].
Proof.
  cbn zeta. split; [| computed].
  apply (reversed_log
           (fst (do_calls (fst (__init__ "Guido" (Some f10000) account_number))
                   [Deposit f500 "t1"; Withdraw f3000 "t2";
                    Deposit f1000 "t3"]))).
  vm_compute. lia.
Defined.

(** ** Comparing two accounts *)











(** ** Account numbers *)

(** A call changes the balance and the log at most. *)
Lemma do_call_frame (self : t) (c : call) :
  let self' := fst (do_call self c) in
  _acc_number self' = _acc_number self
  /\ _holders_name self' = _holders_name self
  /\ pos self' = pos self
  /\ max self' = max self.
Proof.
  cbn zeta. pose proof (do_call_step self c) as H.
  destruct (step c (_balance self)) as [[b x] |].
  - by rewrite H.
  - by destruct H as [-> _].
Qed.

Lemma deposit_number (self : t) (amt : num) (now : string) :
  _acc_number (fst (deposit self amt now)) = _acc_number self.
Proof. apply (do_call_frame self (Deposit amt now)). Qed.

Lemma withdraw_number (self : t) (amt : num) (now : string) :
  _acc_number (fst (withdraw self amt now)) = _acc_number self.
Proof. apply (do_call_frame self (Withdraw amt now)). Qed.

Lemma iadd_account (self : t) (amt : num) (now : string) (out : list string) :
  fst (fst (__iadd__ self amt now out)) = fst (deposit self amt now)
  /\ snd (fst (__iadd__ self amt now out))
     = out ++ ["Depositing using dunder ..."].
Proof.
  unfold __iadd__, print1. by destruct (deposit self amt now) as [s [r | e]].
Qed.

Lemma isub_account (self : t) (amt : num) (now : string) (out : list string) :
  fst (fst (__isub__ self amt now out)) = fst (withdraw self amt now)
  /\ snd (fst (__isub__ self amt now out))
     = out ++ ["Withdrawing using dunder ..."].
Proof.
  unfold __isub__, print1. by destruct (withdraw self amt now) as [s [r | e]].
Qed.

Lemma numbered_start : numbered Process.start.
Proof. split; cbn; [lia | intros i a; by rewrite lookup_nil]. Qed.

Lemma numbered_alter (f : t -> t) (k : nat) (p : Process.t) :
  (forall a, _acc_number (f a) = _acc_number a) ->
  numbered p ->
  numbered {| Process.account_number := Process.account_number p;
              Process.objects := alter f k (Process.objects p);
              Process.stdout := Process.stdout p |}.
Proof.
  intros Hf [Hc Ho]. split; cbn.
  - by rewrite length_alter.
  - intros i a. rewrite list_lookup_alter. case_decide as Hik.
    + subst k.
      destruct (Process.objects p !! i) as [a0 |] eqn:E; [| done].
      intros [= <-]. rewrite Hf. by apply Ho.
    + apply Ho.
Qed.

Lemma numbered_insert (a' : t) (k : nat) (out : list string) (p : Process.t) :
  (forall a, Process.objects p !! k = Some a -> _acc_number a' = _acc_number a) ->
  numbered p ->
  numbered {| Process.account_number := Process.account_number p;
              Process.objects := <[k := a']> (Process.objects p);
              Process.stdout := out |}.
Proof.
  intros Hf [Hc Ho]. split; cbn.
  - by rewrite length_insert.
  - intros i a. destruct (decide (k = i)) as [-> | Hne].
    + intros Hi. assert (Hlt := lookup_lt_Some _ _ _ Hi).
      rewrite length_insert in Hlt.
      rewrite list_lookup_insert_eq in Hi by done. injection Hi as <-.
      destruct (lookup_lt_is_Some_2 (Process.objects p) i Hlt) as [a0 Ha0].
      rewrite (Hf a0 Ha0). by apply Ho.
    + rewrite list_lookup_insert_ne by done. apply Ho.
Qed.

Lemma numbered_exec (p : Process.t) (s : Process.stmt) :
  numbered p -> numbered (Process.exec p s).
Proof.
  intros Hp. destruct s as [name bal | k x now | k x now | k x now | k x now
                            | i j | i j]; cbn.
  - destruct Hp as [Hc Ho]. split; cbn.
    + rewrite length_app. cbn. lia.
    + intros i a Hi. apply lookup_app_Some in Hi as [Hi | [Hge Hi]].
      * by apply Ho.
      * apply list_lookup_singleton_Some in Hi as [Hi <-]. cbn. lia.
  - apply (numbered_alter _ k p); [| done].
    intros a. apply deposit_number.
  - apply (numbered_alter _ k p); [| done].
    intros a. apply withdraw_number.
  - destruct (Process.objects p !! k) as [a0 |] eqn:E; [| done].
    destruct (iadd_account a0 x now (Process.stdout p)) as [Ha _].
    destruct (__iadd__ a0 x now (Process.stdout p)) as [[a1 out] r].
    cbn in Ha. subst a1.
    apply numbered_insert; [| done].
    intros a. rewrite E. intros [= <-]. apply deposit_number.
  - destruct (Process.objects p !! k) as [a0 |] eqn:E; [| done].
    destruct (isub_account a0 x now (Process.stdout p)) as [Ha _].
    destruct (__isub__ a0 x now (Process.stdout p)) as [[a1 out] r].
    cbn in Ha. subst a1.
    apply numbered_insert; [| done].
    intros a. rewrite E. intros [= <-]. apply withdraw_number.
  - by destruct (Process.objects p !! i), (Process.objects p !! j).
  - by destruct (Process.objects p !! i), (Process.objects p !! j).
Qed.

Lemma numbered_run (prog : list Process.stmt) :
  forall p : Process.t, numbered p -> numbered (Process.run p prog).
Proof.
  induction prog as [| s prog IH]; intros p Hp; cbn; [done |].
  apply IH, numbered_exec, Hp.
Qed.

(** C5.  In the state reached by any program from the start of the process,
    the class attribute is 328710100001 plus the number of accounts
    constructed, and the [i]-th account constructed holds 328710100001 + i.
    So an account constructed later holds a strictly greater number, two
    different accounts hold different numbers, and one more construction gives
    the new account the current value of the class attribute, above every
    number given before, and increments the attribute by exactly one. *)
Theorem account_numbers_increase (prog : list Process.stmt) :
  let p := Process.run Process.start prog in
  Process.account_number Process.start = 328710100001
  /\ Process.account_number p
       = 328710100001 + Z.of_nat (length (Process.objects p))
  /\ (forall (i : nat) (a : t),
        Process.objects p !! i = Some a ->
        _acc_number a = 328710100001 + Z.of_nat i)
  /\ (forall (i j : nat) (a b : t),
        Process.objects p !! i = Some a ->
        Process.objects p !! j = Some b ->
        (i < j)%nat ->
        _acc_number a < _acc_number b)
  /\ (forall (i j : nat) (a b : t),
        Process.objects p !! i = Some a ->
        Process.objects p !! j = Some b ->
        i <> j ->
        _acc_number a <> _acc_number b)
  /\ (forall (name : string) (balance : option num),
        let p' := Process.exec p (Process.New name balance) in
        Process.account_number p' = Process.account_number p + 1
        /\ exists a' : t,
             Process.objects p' = Process.objects p ++ [a']
             /\ _acc_number a' = Process.account_number p
             /\ forall (i : nat) (a : t),
                  Process.objects p !! i = Some a ->
                  _acc_number a < _acc_number a').
Proof.
  cbn zeta.
  destruct (numbered_run prog Process.start numbered_start) as [Hc Ho].
  change account_number with 328710100001 in Hc, Ho.
  split; [done |]. split; [done |]. split; [done |].
  split; [| split].
  - intros i j a b Ha Hb Hij.
    rewrite (Ho i a Ha), (Ho j b Hb). lia.
  - intros i j a b Ha Hb Hij.
    rewrite (Ho i a Ha), (Ho j b Hb). lia.
  - intros name balance. cbn. split; [done |].
    eexists. split; [done |]. cbn. split; [done |].
    intros i a Ha. rewrite (Ho i a Ha), Hc.
    apply lookup_lt_Some in Ha. lia.
Qed.

Lemma account_numbers_increase_witness :
  let p := Process.run Process.start
             [Process.New "Guido" (Some f10000);
              Process.IAdd 0 f500 "t1";
              Process.New "Meghna" (Some f5000)] in
  exists a b : t,
    Process.objects p !! 0%nat = Some a
    /\ Process.objects p !! 1%nat = Some b
    /\ _acc_number a = 328710100001
    /\ _acc_number b = 328710100002
    /\ _acc_number a < _acc_number b.
Proof.
  cbn zeta.
  pose proof (account_numbers_increase
                [Process.New "Guido" (Some f10000);
                 Process.IAdd 0 f500 "t1";
                 Process.New "Meghna" (Some f5000)])
    as (_ & _ & _ & Hlt & _).
  eexists _, _. split; [computed |]. split; [computed |].
  split; [reflexivity |]. split; [reflexivity |].
  eapply (Hlt 0%nat 1%nat); [computed | computed | lia].
Defined.

(** C9.  [a == b] is [True] exactly when the account numbers are equal and
    [False] otherwise.  An account equals itself; and two different accounts
    constructed in one process are not equal, whatever their balances. *)
Theorem eq_by_account_number (a b : t) :
  (__eq__ a b = PyBool true <-> _acc_number a = _acc_number b)
  /\ (__eq__ a b = PyBool false <-> _acc_number a <> _acc_number b)
  /\ __eq__ a a = PyBool true
  /\ (forall (prog : list Process.stmt) (i j : nat),
        let p := Process.run Process.start prog in
        Process.objects p !! i = Some a ->
        Process.objects p !! j = Some b ->
        i <> j ->
        __eq__ a b = PyBool false).
Proof.
  unfold __eq__. rewrite Z.eqb_refl.
  split; [| split; [| split; [done |]]].
  - destruct (Z.eqb_spec (_acc_number a) (_acc_number b)); split; done.
  - destruct (Z.eqb_spec (_acc_number a) (_acc_number b)); split; done.
  - intros prog i j. cbn zeta. intros Ha Hb Hij.
    destruct (numbered_run prog Process.start numbered_start) as [_ Ho].
    destruct (Z.eqb_spec (_acc_number a) (_acc_number b)) as [E | E]; [| done].
    rewrite (Ho i a Ha), (Ho j b Hb) in E. lia.
Qed.

Lemma eq_by_account_number_witness :
  let a := fst (__init__ "Guido" (Some f5000) account_number) in
  let b := fst (__init__ "Meghna" (Some f5000) (account_number + 1)) in
  _balance a = _balance b
  /\ __eq__ a b = PyBool false
  /\ __eq__ a a = PyBool true.
Proof.
  cbn zeta.
  pose proof (eq_by_account_number
                (fst (__init__ "Guido" (Some f5000) account_number))
                (fst (__init__ "Meghna" (Some f5000) (account_number + 1))))
    as (_ & _ & Hrefl & Hdiff).
  split; [reflexivity |]. split; [| exact Hrefl].
  apply (Hdiff [Process.New "Guido" (Some f5000);
                Process.New "Meghna" (Some f5000)] 0%nat 1%nat);
    [reflexivity | reflexivity | lia].
Defined.

(** C10.  [get_next_account_number()] returns the class attribute plus one and
    does not change it, while the next account constructed is given the class
    attribute itself: the returned value is not the number of the next
    account but that of the account constructed after it. *)
Theorem get_next_is_one_ahead (cls : Z) (name1 name2 : string)
    (balance1 balance2 : option num) :
  let first := __init__ name1 balance1 cls in
  let second := __init__ name2 balance2 (snd first) in
  get_next_account_number cls = cls + 1
  /\ _acc_number (fst first) = cls
  /\ snd first = cls + 1
  /\ get_next_account_number cls <> _acc_number (fst first)
  /\ get_next_account_number cls = _acc_number (fst second).
Proof. cbn. unfold get_next_account_number. repeat split. lia. Qed.

(** ** The passbook writer *)

Import TransactionWriter.

Lemma is_closed_file_close (h : nat) (w : world) :
  (h < length (files w))%nat -> is_closed h (file_close h w) = Some true.
Proof.
  intros Hh. unfold is_closed, file_close. cbn.
  rewrite list_lookup_alter_eq.
  destruct (lookup_lt_is_Some_2 (files w) h Hh) as [f ->]. done.
Qed.

Lemma run_action_length (a : action) (w : world) :
  length (files (fst (run_action a w))) = length (files w).
Proof.
  destruct a as [[h |] s | [h |] | s | e]; cbn; try done.
  - unfold file_write. destruct (files w !! h) as [f |]; [| done].
    destruct (closed f); cbn; [done |].
    destruct (writable (fmode f)); cbn; [| done]. by rewrite length_insert.
  - by rewrite length_alter.
Qed.

Lemma run_body_length (acts : list action) :
  forall w : world,
    length (files (fst (run_body acts w))) = length (files w).
Proof.
  induction acts as [| a acts IH]; intros w; cbn; [done |].
  pose proof (run_action_length a w) as Ha.
  destruct (run_action a w) as [w' [u | e]]; cbn in *; [| done].
  by rewrite IH.
Qed.

(** An action other than closing [h] leaves an open [h] open. *)
Lemma run_action_keeps_open (h : nat) (a : action) (w : world) :
  a <> Close (Some h) ->
  is_closed h w = Some false ->
  is_closed h (fst (run_action a w)) = Some false.
Proof.
  unfold is_closed. intros Ha Hh.
  destruct a as [[k |] s | [k |] | s | e]; cbn; try done.
  - unfold file_write. destruct (files w !! k) as [f |] eqn:E; [| done].
    destruct (closed f) eqn:Ec; cbn; [done |].
    destruct (writable (fmode f)); cbn; [| done].
    destruct (decide (k = h)) as [-> | Hne].
    + rewrite list_lookup_insert_eq; [done |]. by eapply lookup_lt_Some.
    + by rewrite list_lookup_insert_ne.
  - assert (k <> h) by congruence.
    by rewrite list_lookup_alter_ne.
Qed.

Lemma run_body_keeps_open (h : nat) (acts : list action) :
  forall w : world,
    Close (Some h) ∉ acts ->
    is_closed h w = Some false ->
    is_closed h (fst (run_body acts w)) = Some false.
Proof.
  induction acts as [| a acts IH]; intros w Hn Hh; cbn; [done |].
  apply not_elem_of_cons in Hn as [Ha Hn].
  pose proof (run_action_keeps_open h a w (not_eq_sym Ha) Hh) as Hk.
  destruct (run_action a w) as [w' [u | e]]; cbn in *; [| done].
  by apply IH.
Qed.

(** When [open] succeeds, the statement is: enter, run the body on the new
    handle, and leave by the branch of [__exit__] that the body's outcome
    selects. *)
Lemma with_unfold (name mode : string) (body : option nat -> list action)
    (w : world) :
  openable w name mode = true ->
  let h := length (files w) in
  let w2 := fst (run_body (body (Some h)) (entered name mode w)) in
  with_ name mode body w =
    match snd (run_body (body (Some h)) (entered name mode w)) with
    | Return _ =>
        (print "File close successful!" (file_close h w2), Return tt)
    | Raise e =>
        (print ("Something went wrong! " +:+ " " +:+ "<class '" +:+ e +:+ "'>")
           w2,
         Raise e)
    end.
Proof.
  intros Ho. unfold with_, __enter__, py_open. cbn. rewrite Ho. cbn.
  fold (entered name mode w).
  destruct (run_body (body (Some (length (files w)))) (entered name mode w))
    as [w2 [u | e]]; done.
Qed.

(** C6.  When [open] succeeds the body receives the handle of the file object
    that [open] has just made, open at that point.  If the body completes
    normally, the statement completes normally and that handle is closed
    afterwards (everything else about the files is as the body left it).  If
    the body raises, the same exception leaves the statement and [__exit__]
    closes nothing: the files, this handle included, are as the body left
    them, so a handle the body did not close itself is still open. *)
Theorem passbook_scope (name mode : string) (body : option nat -> list action)
    (w : world) :
  openable w name mode = true ->
  let h := length (files w) in
  let w1 := entered name mode w in
  let w2 := fst (run_body (body (Some h)) w1) in
  let r := snd (run_body (body (Some h)) w1) in
  let w3 := fst (with_ name mode body w) in
  fst (fst (__enter__ (__init__ name mode) w))
    = {| file := Some h; file_name := name; file_mode := mode |}
  /\ snd (__enter__ (__init__ name mode) w) = Return (Some h)
  /\ files w1 !! h = Some (File name mode false [])
  /\ (r = Return tt ->
      snd (with_ name mode body w) = Return tt
      /\ is_closed h w3 = Some true
      /\ files w3 = files (file_close h w2))
  /\ (forall e : string,
        r = Raise e ->
        snd (with_ name mode body w) = Raise e
        /\ files w3 = files w2
        /\ is_closed h w3 = is_closed h w2
        /\ (Close (Some h) ∉ body (Some h) -> is_closed h w3 = Some false)).
Proof.
  intros Ho. cbn zeta. rewrite (with_unfold name mode body w Ho). cbn zeta.
  assert (Hfresh : files (entered name mode w) !! length (files w)
                   = Some (File name mode false [])).
  { cbn. rewrite lookup_app_r by lia. by rewrite Nat.sub_diag. }
  split; [| split; [| split; [done |]]].
  - unfold __enter__, py_open. cbn. by rewrite Ho.
  - unfold __enter__, py_open. cbn. by rewrite Ho.
  - split.
    + intros ->. cbn. split; [done |]. split; [| done].
      change (is_closed (length (files w))
                (file_close (length (files w))
                   (fst (run_body (body (Some (length (files w))))
                           (entered name mode w)))) = Some true).
      apply is_closed_file_close. rewrite run_body_length.
      by eapply lookup_lt_Some.
    + intros e ->. cbn. split; [done |]. split; [done |]. split; [done |].
      intros Hn.
      change (is_closed (length (files w))
                (fst (run_body (body (Some (length (files w))))
                        (entered name mode w))) = Some false).
      apply run_body_keeps_open; [done |].
      unfold is_closed. by rewrite Hfresh.
Qed.

Lemma passbook_scope_witness :
  let w := World [] [] (fun _ _ => true) (fun _ _ => "FileNotFoundError") in
  let good := fun f => [Write f "line 1"; Write f "line 2"] in
  let bad := fun f => [Write f "line 1"; Throw "KeyError"; Write f "line 2"] in
  (snd (with_ "passbookA.txt" "w" good w) = Return tt
   /\ is_closed 0 (fst (with_ "passbookA.txt" "w" good w)) = Some true)
  /\ (snd (with_ "passbookA.txt" "w" bad w) = Raise "KeyError"
      /\ is_closed 0 (fst (with_ "passbookA.txt" "w" bad w)) = Some false).
Proof.
  cbn zeta. split.
  - pose proof (passbook_scope "passbookA.txt" "w"
                  (fun f => [Write f "line 1"; Write f "line 2"])
                  (World [] [] (fun _ _ => true)
                     (fun _ _ => "FileNotFoundError")) eq_refl)
      as (_ & _ & _ & Hok & _).
    destruct (Hok eq_refl) as (H1 & H2 & _). split; [exact H1 | exact H2].
  - pose proof (passbook_scope "passbookA.txt" "w"
                  (fun f => [Write f "line 1"; Throw "KeyError";
                             Write f "line 2"])
                  (World [] [] (fun _ _ => true)
                     (fun _ _ => "FileNotFoundError")) eq_refl)
      as (_ & _ & _ & _ & Hbad).
    destruct (Hbad "KeyError" eq_refl) as (H1 & _ & _ & H4).
    split; [exact H1 |]. apply H4.
    intros Hin. repeat (apply elem_of_cons in Hin as [Hin | Hin]; [discriminate |]).
    by apply elem_of_nil in Hin.
Defined.

(** * Further properties *)

Import Account.

(** ** The ledger *)

Lemma steps_nonnegative (cs : list call) :
  forall z : Z,
    Forall (fun c => int_call c = true) cs ->
    0 <= z ->
    exists z' : Z, fst (steps cs (PyInt z)) = PyInt z' /\ 0 <= z'.
Proof.
  induction cs as [| c cs IH]; intros z Hcs Hz; [by exists z |].
  apply Forall_cons in Hcs as [Hc Hcs]. cbn [steps].
  destruct (step c (PyInt z)) as [[b x] |] eqn:Es; [| by apply IH].
  destruct (step_Some c _ _ _ Es) as (Ea & _ & _ & _ & Hb).
  assert (Hz' : exists z' : Z, b = PyInt z' /\ 0 <= z').
  { destruct c as [[y |] now | [y |] now]; try done; cbn in Ea;
      injection Ea as <-; eexists; (split; [done |]);
      destruct Hb as [Hb _]; unfold py_le, py_ge in Hb; cbn in Hb.
    - destruct (Z.compare_spec y 0); try done; lia.
    - destruct (Z.compare_spec (z - y) 0); try done; lia. }
  destruct Hz' as (z' & -> & Hz').
  destruct (IH z' Hcs Hz') as (z'' & E & Hz'').
  destruct (steps cs (PyInt z')) as [bf xs]. cbn in *. by exists z''.
Qed.

(** X1.  An accepted [withdraw] never leaves a negative balance: the new
    balance satisfies [balance >= 0].  With an [int] balance and [int]
    amounts, a balance that is not negative stays so through every sequence
    of [deposit] and [withdraw] calls. *)
Theorem balance_stays_nonnegative (self : t) (cs : list call) :
  (forall (amt : num) (now : string),
     snd (withdraw self amt now) = Return true ->
     py_ge (_balance (fst (withdraw self amt now))) (PyInt 0) = true)
  /\ (is_int (_balance self) = true ->
      Forall (fun c => int_call c = true) cs ->
      py_ge (_balance self) (PyInt 0) = true ->
      is_int (_balance (fst (do_calls self cs))) = true
      /\ py_ge (_balance (fst (do_calls self cs))) (PyInt 0) = true).
Proof.
  split.
  - intros amt now. pose proof (do_call_step self (Withdraw amt now)) as H.
    destruct (step (Withdraw amt now) (_balance self)) as [[b x] |] eqn:Es.
    + cbn in H. rewrite H. intros _. cbn.
      by destruct (step_Some _ _ _ _ Es) as (_ & _ & _ & _ & Hb & _).
    + cbn in H. destruct H as [_ H]. intros E. by rewrite E in H.
  - intros Hb Hcs Hz. destruct (do_calls_steps cs self) as [-> _]. cbn.
    destruct (_balance self) as [z |]; [| done].
    assert (0 <= z).
    { unfold py_ge in Hz. cbn in Hz.
      destruct (Z.compare_spec z 0); try done; lia. }
    destruct (steps_nonnegative cs z Hcs) as (z' & -> & Hz'); [done |].
    split; [done |]. unfold py_ge. cbn.
    destruct (Z.compare_spec z' 0); try done; lia.
Qed.

Lemma balance_stays_nonnegative_witness :
  py_ge (_balance
           (fst (do_calls (fst (__init__ "Meghna" (Some (PyInt 500))
                                  account_number))
                   [Withdraw (PyInt 400) "t1"; Withdraw (PyInt 200) "t2";
                    Deposit (PyInt 50) "t3"]))) (PyInt 0) = true.
Proof.
  apply (balance_stays_nonnegative
           (fst (__init__ "Meghna" (Some (PyInt 500)) account_number))
           [Withdraw (PyInt 400) "t1"; Withdraw (PyInt 200) "t2";
            Deposit (PyInt 50) "t3"]).
  - reflexivity.
  - repeat constructor.
  - reflexivity.
Defined.

Lemma steps_closing (cs : list call) :
  forall b : num,
    closing_balance b (snd (steps cs b)) = fst (steps cs b).
Proof.
  induction cs as [| c cs IH]; intros b; [done |]. cbn [steps].
  destruct (step c b) as [[b' x] |] eqn:Es; [| apply IH].
  destruct (step_Some c _ _ _ Es) as (_ & _ & _ & Eaf & _).
  specialize (IH b'). destruct (steps cs b') as [bf xs]. cbn in *.
  unfold closing_balance in *. cbn. by rewrite Eaf.
Qed.

(** X2.  After any sequence of calls the balance-after of the last appended
    record is the balance of the account (the balance itself when nothing was
    appended); for an account as [__init__] makes it this is the last record
    of its log.  When the balance at the start and all amounts are [int]s,
    the appended records form a chain from the balance at the start: the
    balance-before of each record is the balance-after of the record appended
    before it, and each balance-after is the balance-before plus the signed
    amount. *)
Theorem log_is_a_chain (self : t) (cs : list call) :
  let self' := fst (do_calls self cs) in
  (exists new : list txn,
      _transactions_log self' = _transactions_log self ++ new
      /\ closing_balance (_balance self) new = _balance self'
      /\ (is_int (_balance self) = true ->
          Forall (fun c => int_call c = true) cs ->
          chain_from (_balance self) new))
  /\ (forall (name : string) (initial : option num) (cls : Z),
        self = fst (__init__ name initial cls) ->
        closing_balance (default default_balance initial)
          (_transactions_log self') = _balance self').
Proof.
  cbn zeta. destruct (do_calls_steps cs self) as [-> _]. cbn.
  pose proof (steps_closing cs (_balance self)) as Hc.
  split.
  - eexists. split; [done |]. split; [done |].
    intros Hb Hcs. destruct (_balance self) as [z |]; [| done].
    by destruct (steps_int cs z Hcs) as (_ & _ & H & _).
  - intros name initial cls ->. cbn in *. done.
Qed.

Lemma log_is_a_chain_witness :
  let a := fst (do_calls (fst (__init__ "Guido" (Some f10000) account_number))
                  [Deposit f500 "t1"; Withdraw f3000 "t2";
                   Deposit f1000 "t3"]) in
  closing_balance f10000 (_transactions_log a) = _balance a.
Proof.
  cbn zeta.
  pose proof (log_is_a_chain
                (fst (__init__ "Guido" (Some f10000) account_number))
                [Deposit f500 "t1"; Withdraw f3000 "t2"; Deposit f1000 "t3"])
    as [_ H].
  apply (H "Guido" (Some f10000) account_number). reflexivity.
Defined.

Lemma steps_shape (cs : list call) :
  forall b : num,
    Forall (fun x => (kind x = CREDIT /\ py_le (amount x) (PyInt 0) = false)
                     \/ (kind x = DEBIT /\ py_ge (after x) (PyInt 0) = true))
      (snd (steps cs b)).
Proof.
  induction cs as [| c cs IH]; intros b; [by constructor |]. cbn [steps].
  destruct (step c b) as [[b' x] |] eqn:Es; [| apply IH].
  destruct (step_Some c _ _ _ Es) as (_ & Ek & Eam & Eaf & Hb).
  specialize (IH b'). destruct (steps cs b') as [bf xs]. cbn in *.
  constructor; [| done]. rewrite Ek, Eam, Eaf.
  destruct c; cbn; [left | right]; by destruct Hb as [Hb _].
Qed.

(** X3.  Every record appended by [deposit] or [withdraw] is either a CREDIT
    record whose amount does not satisfy [amount <= 0], or a DEBIT record
    whose balance-after satisfies [balance >= 0]. *)
Theorem appended_records_shape (self : t) (cs : list call) :
  exists new : list txn,
    _transactions_log (fst (do_calls self cs)) = _transactions_log self ++ new
    /\ Forall (fun x =>
                 (kind x = CREDIT /\ py_le (amount x) (PyInt 0) = false)
                 \/ (kind x = DEBIT /\ py_ge (after x) (PyInt 0) = true)) new.
Proof.
  destruct (do_calls_steps cs self) as [-> _]. cbn.
  eexists. split; [done |]. apply steps_shape.
Qed.

(** X4.  No sequence of [deposit] and [withdraw] calls changes the account
    number or the holder's name, nor the iteration attributes [pos] and
    [max]. *)
Theorem identity_is_kept (self : t) (cs : list call) :
  let self' := fst (do_calls self cs) in
  number self' = number self
  /\ name self' = name self
  /\ pos self' = pos self
  /\ max self' = max self.
Proof.
  cbn zeta. destruct (do_calls_steps cs self) as [E _].
  unfold number, name. rewrite E. done.
Qed.

(** X5.  On an [int] balance with an [int] amount [x > 0]: [deposit(x)]
    followed by [withdraw(x)] is accepted twice and gives the balance back
    when the balance was not negative; so does [withdraw(x)] within the
    balance followed by [deposit(x)].  Either way the log is two records
    longer. *)
Theorem deposit_withdraw_round_trip (self : t) (z x : Z) (now1 now2 : string) :
  _balance self = PyInt z ->
  0 < x ->
  (0 <= z ->
   let mid := deposit self (PyInt x) now1 in
   let back := withdraw (fst mid) (PyInt x) now2 in
   snd mid = Return true /\ snd back = Return true
   /\ _balance (fst back) = _balance self
   /\ __len__ (fst back) = S (S (__len__ self)))
  /\ (x <= z ->
      let mid := withdraw self (PyInt x) now1 in
      let back := deposit (fst mid) (PyInt x) now2 in
      snd mid = Return true /\ snd back = Return true
      /\ _balance (fst back) = _balance self
      /\ __len__ (fst back) = S (S (__len__ self))).
Proof.
  intros Eb Hx.
  assert (Hle : py_le (PyInt x) (PyInt 0) = false).
  { unfold py_le. cbn. destruct (Z.compare_spec x 0); try done; lia. }
  assert (Hge : forall v : Z, 0 <= v -> py_ge (PyInt v) (PyInt 0) = true).
  { intros v Hv. unfold py_ge. cbn.
    destruct (Z.compare_spec v 0); try done; lia. }
  split; intros Hz; cbn zeta.
  - destruct (deposit_accepted self (PyInt x) now1 (PyInt (z + x)) Hle)
      as (b0 & _ & ->); [by rewrite Eb |]. cbn [fst snd].
    destruct (withdraw_accepted (booked self (PyInt (z + x))
                                   [Txn CREDIT now1 b0 (PyInt x) (PyInt (z + x))])
                (PyInt x) now2 (PyInt (z + x - x)))
      as (b1 & _ & ->); [done | apply Hge; lia |].
    unfold __len__. cbn. rewrite !length_app, Eb. cbn.
    repeat split; try (f_equal; lia).
  - destruct (withdraw_accepted self (PyInt x) now1 (PyInt (z - x)))
      as (b0 & _ & ->); [by rewrite Eb | apply Hge; lia |]. cbn [fst snd].
    destruct (deposit_accepted (booked self (PyInt (z - x))
                                  [Txn DEBIT now1 b0 (py_neg (PyInt x))
                                     (PyInt (z - x))])
                (PyInt x) now2 (PyInt (z - x + x)) Hle)
      as (b1 & _ & ->); [done |].
    unfold __len__. cbn. rewrite !length_app, Eb. cbn.
    repeat split; try (f_equal; lia).
Qed.

Lemma deposit_withdraw_round_trip_witness :
  _balance
    (fst (withdraw
            (fst (deposit (fst (__init__ "Meghna" (Some (PyInt 500))
                                  account_number))
                    (PyInt 200) "t1")) (PyInt 200) "t2")) = PyInt 500.
Proof.
  pose proof (deposit_withdraw_round_trip
                (fst (__init__ "Meghna" (Some (PyInt 500)) account_number))
                500 200 "t1" "t2" eq_refl ltac:(lia)) as [H _].
  destruct H as (_ & _ & H & _); [lia |].
  rewrite H. reflexivity.
Defined.

(** X6.  [a += amount] and [a -= amount] print their line whether or not the
    amount is accepted and give the account back without the result of
    [deposit] or [withdraw]: they return normally for [True] and for [False]
    alike, and the account comes back exactly as it was whenever [deposit]
    (for [+=]) or [withdraw] (for [-=]) did not return [True], and only
    then. *)
Theorem augmented_assignment_hides_rejection (self : t) (amt : num)
    (now : string) (out : list string) :
  snd (fst (__iadd__ self amt now out)) = out ++ ["Depositing using dunder ..."]
  /\ snd (fst (__isub__ self amt now out))
     = out ++ ["Withdrawing using dunder ..."]
  /\ (forall b : bool,
        snd (deposit self amt now) = Return b ->
        snd (__iadd__ self amt now out) = Return tt)
  /\ (forall b : bool,
        snd (withdraw self amt now) = Return b ->
        snd (__isub__ self amt now out) = Return tt)
  /\ (fst (fst (__iadd__ self amt now out)) = self
      <-> snd (deposit self amt now) <> Return true)
  /\ (fst (fst (__isub__ self amt now out)) = self
      <-> snd (withdraw self amt now) <> Return true).
Proof.
  destruct (iadd_account self amt now out) as [-> ->].
  destruct (isub_account self amt now out) as [-> ->].
  split; [done |]. split; [done |].
  split; [| split].
  - intros b E. unfold __iadd__.
    destruct (deposit self amt now) as [s r]. cbn in E. by subst r.
  - intros b E. unfold __isub__.
    destruct (withdraw self amt now) as [s r]. cbn in E. by subst r.
  - assert (Hc : forall c : call,
              fst (do_call self c) = self <-> snd (do_call self c) <> Return true).
    { intros c. pose proof (do_call_step self c) as H.
      destruct (step c (_balance self)) as [[b x] |].
      - rewrite H. cbn. split; [| done].
        intros E. apply (f_equal (fun a => length (_transactions_log a))) in E.
        cbn in E. rewrite length_app in E. cbn in E. lia.
      - destruct H as [-> H]. split; [| done]. intros _ E.
        by rewrite E in H. }
    split; [apply (Hc (Deposit amt now)) | apply (Hc (Withdraw amt now))].
Qed.

Lemma augmented_assignment_hides_rejection_witness :
  fst (fst (__iadd__ (fst (__init__ "Meghna" None account_number))
              (float_lit (-5)%float) "t1" []))
  = fst (__init__ "Meghna" None account_number).
Proof.
  apply (augmented_assignment_hides_rejection
           (fst (__init__ "Meghna" None account_number))
           (float_lit (-5)%float) "t1" []).
  vm_compute. discriminate.
Defined.

(** X7.  [==] is an equivalence on accounts (reflexive, symmetric,
    transitive), [!=] is its negation, and an account stays equal to what it
    was before any sequence of [deposit] and [withdraw] calls. *)
Theorem eq_is_an_equivalence (a b c : t) (cs : list call) :
  __eq__ a a = PyBool true
  /\ __eq__ a b = __eq__ b a
  /\ (__eq__ a b = PyBool true -> __eq__ b c = PyBool true ->
      __eq__ a c = PyBool true)
  /\ __ne__ a b = PyBool (negb (truthy (__eq__ a b)))
  /\ __eq__ (fst (do_calls a cs)) a = PyBool true.
Proof.
  destruct (do_calls_steps cs a) as [E _]. rewrite E.
  unfold __eq__, __ne__. cbn. rewrite !Z.eqb_refl.
  split; [done |]. split; [by rewrite Z.eqb_sym |]. split.
  - destruct (Z.eqb_spec (_acc_number a) (_acc_number b)) as [-> |]; [| done].
    by destruct (Z.eqb_spec (_acc_number b) (_acc_number c)).
  - split; [| done]. by destruct (_ =? _).
Qed.

Lemma eq_is_an_equivalence_witness :
  let a := fst (__init__ "Guido" (Some f5000) account_number) in
  let b := fst (deposit a f100 "t1") in
  let c := fst (withdraw b f500 "t2") in
  __eq__ a b = PyBool true /\ __eq__ b c = PyBool true
  /\ __eq__ a c = PyBool true.
Proof.
  cbn zeta.
  pose proof (eq_is_an_equivalence
                (fst (__init__ "Guido" (Some f5000) account_number))
                (fst (deposit (fst (__init__ "Guido" (Some f5000) account_number))
                        f100 "t1"))
                (fst (withdraw
                        (fst (deposit
                                (fst (__init__ "Guido" (Some f5000)
                                        account_number)) f100 "t1"))
                        f500 "t2")) [])
    as (_ & _ & Ht & _).
  split; [computed |]. split; [computed |].
  apply Ht; computed.
Defined.

(** ** Iterating over an account *)

Import Iteration.

Lemma next_positioned (self : t) (p m : nat) :
  __next__ (positioned self p m) =
    if (m <=? p)%nat then None
    else match _transactions_log self !! p with
         | Some x => Some (x, positioned self (S p) m)
         | None => None
         end.
Proof. done. Qed.

Lemma drop_take_step {A : Type} (l : list A) (p m : nat) (x : A) :
  (p < m)%nat -> l !! p = Some x ->
  drop p (take m l) = x :: drop (S p) (take m l).
Proof.
  intros Hp Hx. apply drop_S. by rewrite lookup_take_lt.
Qed.

(** A body built from [deposit] and [withdraw] calls acts on the account
    whatever its position, keeps the position and only extends the log. *)
Lemma calls_body_positioned (f : txn -> list call) (x : txn) (self : t)
    (p m : nat) :
  calls_body f x (positioned self p m)
  = positioned (calls_body f x self) p m
  /\ exists more : list txn,
       _transactions_log (calls_body f x self)
       = _transactions_log self ++ more.
Proof.
  unfold calls_body.
  destruct (do_calls_steps (f x) (positioned self p m)) as [-> _].
  destruct (do_calls_steps (f x) self) as [-> _].
  split; [done |]. by eexists.
Qed.

(** The loop with a body of calls, from position [p]: it yields the records
    of the first [m] from [p] on and ends with the account the bodies have
    made, positioned at the end. *)
Lemma loop_calls (f : txn -> list call) (m k : nat) :
  forall (self : t) (p fuel : nat),
    (m <= length (_transactions_log self))%nat ->
    (m - p = k)%nat -> (p <= m)%nat -> (k < fuel)%nat ->
    loop fuel (calls_body f) (positioned self p m)
    = Some (drop p (take m (_transactions_log self)),
            positioned
              (foldl (fun s x => calls_body f x s) self
                 (drop p (take m (_transactions_log self)))) m m,
            Exhausted).
Proof.
  induction k as [| k IH]; intros self p fuel Hm Hk Hp Hf;
    (destruct fuel as [| fuel]; [lia |]); cbn [loop];
    rewrite next_positioned.
  - assert (p = m) as -> by lia.
    rewrite Nat.leb_refl. cbn. rewrite Nat.leb_refl.
    rewrite drop_ge; [done |]. rewrite length_take. lia.
  - rewrite (proj2 (Nat.leb_gt m p)) by lia.
    destruct (lookup_lt_is_Some_2 (_transactions_log self) p) as [x Hx];
      [lia |].
    rewrite Hx.
    destruct (calls_body_positioned f x self (S p) m) as [-> [more Hlog]].
    rewrite (IH (calls_body f x self) (S p) fuel);
      [| rewrite Hlog, length_app; lia | lia | lia | lia].
    rewrite Hlog, (take_app_le (_transactions_log self) more) by lia.
    by rewrite (drop_take_step _ p m x) by (done || lia).
Qed.

Lemma for_in_calls (f : txn -> list call) (self : t) (fuel : nat) :
  (length (_transactions_log self) < fuel)%nat ->
  for_in fuel (calls_body f) self
  = Some (_transactions_log self,
          positioned
            (foldl (fun s x => calls_body f x s) self (_transactions_log self))
            (length (_transactions_log self))
            (length (_transactions_log self)),
          Exhausted).
Proof.
  intros Hf. unfold for_in.
  change (__iter__ self)
    with (positioned self 0 (length (_transactions_log self))).
  rewrite (loop_calls f _ (length (_transactions_log self))) by lia.
  by rewrite drop_0, firstn_all.
Qed.

Lemma foldl_pass (self : t) (l : list txn) :
  foldl (fun s x => calls_body (fun _ => []) x s) self l = self.
Proof. induction l as [| x l IH]; [done |]. cbn. apply IH. Qed.

Lemma for_in_pass (self : t) (fuel : nat) :
  (length (_transactions_log self) < fuel)%nat ->
  for_in fuel pass self
  = Some (_transactions_log self,
          positioned self (length (_transactions_log self))
            (length (_transactions_log self)),
          Exhausted).
Proof.
  intros Hf.
  change pass with (calls_body (fun _ => [])).
  rewrite for_in_calls by done. by rewrite foldl_pass.
Qed.

(** X8.  [for x in a] with a body that leaves the account alone yields the
    whole log in chronological order and ends by [StopIteration]; it leaves
    [pos] and [max] at the length of the log, where a further [next] raises
    [StopIteration] again, and a second [for] loop yields the whole log
    again. *)
Theorem iteration_yields_log (self : t) (fuel : nat) :
  (length (_transactions_log self) < fuel)%nat ->
  let n := length (_transactions_log self) in
  for_in fuel pass self
    = Some (_transactions_log self, positioned self n n, Exhausted)
  /\ __next__ (positioned self n n) = None
  /\ for_in fuel pass (positioned self n n)
     = Some (_transactions_log self, positioned self n n, Exhausted).
Proof.
  intros Hf. cbn zeta.
  split; [by apply for_in_pass |]. split.
  - rewrite next_positioned. by rewrite Nat.leb_refl.
  - by rewrite (for_in_pass (positioned self _ _) fuel).
Qed.

Lemma iteration_yields_log_witness :
  let a := fst (do_calls (fst (__init__ "Guido" (Some f10000) account_number))
                  [Deposit f500 "t1"; Withdraw f3000 "t2"]) in
  for_in 3 pass a = Some (_transactions_log a, positioned a 2 2, Exhausted).
Proof.
  cbn zeta.
  apply (iteration_yields_log
           (fst (do_calls (fst (__init__ "Guido" (Some f10000) account_number))
                   [Deposit f500 "t1"; Withdraw f3000 "t2"])) 3).
  vm_compute. lia.
Defined.

(** X9.  A [for x in a] loop whose body calls [deposit] and [withdraw] on the
    same account still ends, by [StopIteration], and yields exactly the
    records that were in the log when the loop started.  The account it
    leaves is the one the bodies have made, run in order on those records,
    with [pos] and [max] at the length of the log at the start: the records
    the bodies append are in its log, after the old ones, and were never
    yielded. *)
Theorem iteration_is_a_snapshot (self : t) (f : txn -> list call)
    (fuel : nat) :
  (length (_transactions_log self) < fuel)%nat ->
  let n := length (_transactions_log self) in
  let made := foldl (fun s x => fst (do_calls s (f x))) self
                (_transactions_log self) in
  for_in fuel (fun x s => fst (do_calls s (f x))) self
  = Some (_transactions_log self, positioned made n n, Exhausted)
  /\ exists more : list txn,
       _transactions_log made = _transactions_log self ++ more
       /\ (forall x : txn,
             x ∈ _transactions_log self ->
             snd (steps (f x) (_balance self)) <> [] ->
             more <> []).
Proof.
  intros Hf. cbn zeta. split; [by apply (for_in_calls f) |].
  assert (Hgrow : forall (l : list txn) (s : t),
            exists more : list txn,
              _transactions_log (foldl (fun s x => fst (do_calls s (f x))) s l)
              = _transactions_log s ++ more
              /\ (forall x : txn,
                    x ∈ l -> snd (steps (f x) (_balance s)) <> [] ->
                    more <> [])).
  { induction l as [| y l IH]; intros s.
    - exists []. rewrite app_nil_r. split; [done |].
      intros x Hx. by apply elem_of_nil in Hx.
    - cbn [foldl].
      destruct (IH (fst (do_calls s (f y)))) as (more & -> & Hmore).
      destruct (do_calls_steps (f y) s) as [E _]. rewrite E. cbn.
      eexists. rewrite <- app_assoc. split; [done |].
      intros x Hx Hs.
      destruct (snd (steps (f y) (_balance s))) as [| r rs] eqn:Ey; [| done].
      cbn. apply elem_of_cons in Hx as [-> | Hx]; [done |].
      apply (Hmore x Hx). rewrite E. cbn.
      assert (Eb : fst (steps (f y) (_balance s)) = _balance s).
      { rewrite <- (steps_closing (f y) (_balance s)). by rewrite Ey. }
      by rewrite Eb. }
  apply Hgrow.
Qed.

Lemma iteration_is_a_snapshot_witness :
  let a := fst (do_calls (fst (__init__ "Guido" (Some f10000) account_number))
                  [Deposit f500 "t1"; Withdraw f3000 "t2"]) in
  exists a' : t,
    for_in 3 (fun x s => fst (do_calls s [Deposit f100 "t3"])) a
    = Some (_transactions_log a, a', Exhausted)
    /\ length (_transactions_log a') = 4%nat.
Proof.
  cbn zeta.
  pose proof (iteration_is_a_snapshot
                (fst (do_calls
                        (fst (__init__ "Guido" (Some f10000) account_number))
                        [Deposit f500 "t1"; Withdraw f3000 "t2"]))
                (fun _ => [Deposit f100 "t3"]) 3) as H.
  destruct H as [H _]; [vm_compute; lia |].
  eexists. split; [exact H |]. computed.
Defined.

(** X10.  [next(a)] on an account that no [for] loop or [iter] has touched
    raises [StopIteration], however many records its log holds: [max] is set
    to 0 by [__init__] and only [__iter__] updates it. *)
Theorem next_before_iter_stops (name : string) (initial : option num)
    (cls : Z) (cs : list call) :
  let a := fst (do_calls (fst (__init__ name initial cls)) cs) in
  max a = 0%nat /\ pos a = 0%nat /\ __next__ a = None.
Proof.
  cbn zeta.
  destruct (do_calls_steps cs (fst (__init__ name initial cls))) as [E _].
  rewrite E. done.
Qed.

(** X11.  Two nested [for] loops over the same account share its position:
    the inner loop runs the position to the end, so the outer loop yields
    only the first record of a log that is not empty. *)
Theorem nested_iteration_yields_one (self : t) (x : txn) (rest : list txn)
    (fuel : nat) :
  _transactions_log self = x :: rest ->
  (length (_transactions_log self) < fuel)%nat ->
  let n := length (_transactions_log self) in
  for_in fuel (inner_loop fuel) self
  = Some ([x], positioned self n n, Exhausted).
Proof.
  intros Hlog Hf. cbn zeta. unfold for_in.
  destruct fuel as [| fuel]; [lia |]. cbn [loop].
  change (__iter__ self)
    with (positioned self 0 (length (_transactions_log self))).
  rewrite next_positioned.
  rewrite (proj2 (Nat.leb_gt (length (_transactions_log self)) 0))
    by (rewrite Hlog; cbn; lia).
  assert (H0 : _transactions_log self !! 0%nat = Some x) by (by rewrite Hlog).
  rewrite H0.
  assert (Hin : inner_loop (S fuel) x
                  (positioned self 1 (length (_transactions_log self)))
                = positioned self (length (_transactions_log self))
                    (length (_transactions_log self))).
  { unfold inner_loop.
    rewrite (for_in_pass
               (positioned self 1 (length (_transactions_log self)))
               (S fuel) Hf).
    reflexivity. }
  rewrite Hin.
  destruct fuel as [| fuel]; [rewrite Hlog in Hf; cbn in Hf; lia |].
  cbn [loop]. rewrite next_positioned, Nat.leb_refl. cbn.
  by rewrite Nat.leb_refl.
Qed.

Lemma nested_iteration_yields_one_witness :
  let a := fst (do_calls (fst (__init__ "Guido" (Some (PyInt 10000))
                                 account_number))
                  [Deposit (PyInt 500) "t1"; Withdraw (PyInt 3000) "t2";
                   Deposit (PyInt 1000) "t3"]) in
  for_in 4 (inner_loop 4) a
  = Some ([Txn CREDIT "t1" (PyInt 10000) (PyInt 500) (PyInt 10500)],
          positioned a 3 3, Exhausted).
Proof.
  cbn zeta.
  apply (nested_iteration_yields_one
           (fst (do_calls (fst (__init__ "Guido" (Some (PyInt 10000))
                                  account_number))
                   [Deposit (PyInt 500) "t1"; Withdraw (PyInt 3000) "t2";
                    Deposit (PyInt 1000) "t3"]))
           (Txn CREDIT "t1" (PyInt 10000) (PyInt 500) (PyInt 10500))
           [Txn DEBIT "t2" (PyInt 10500) (PyInt (-3000)) (PyInt 7500);
            Txn CREDIT "t3" (PyInt 7500) (PyInt 1000) (PyInt 8500)] 4).
  - reflexivity.
  - vm_compute. lia.
Defined.

(** ** Indexing the log *)

Lemma getitem_int_nonneg (self : t) (i : Z) :
  0 <= i -> getitem_int self i = _transactions_log self !! Z.to_nat i.
Proof.
  intros Hi. unfold getitem_int. cbn zeta.
  rewrite (proj2 (Z.ltb_ge i 0)) by done.
  rewrite (proj2 (Z.ltb_ge i 0)) by done. cbn.
  destruct (Z.leb_spec (Z.of_nat (length (_transactions_log self))) i);
    [| done].
  symmetry. apply lookup_ge_None. lia.
Qed.

Lemma getitem_int_neg (self : t) (i : Z) :
  i < 0 ->
  getitem_int self i =
    if i <? - Z.of_nat (length (_transactions_log self)) then None
    else _transactions_log self
           !! Z.to_nat (i + Z.of_nat (length (_transactions_log self))).
Proof.
  intros Hi. unfold getitem_int. cbn zeta.
  rewrite (proj2 (Z.ltb_lt i 0)) by done.
  destruct (Z.ltb_spec i (- Z.of_nat (length (_transactions_log self)))).
  - by rewrite (proj2 (Z.ltb_lt _ 0)) by lia.
  - rewrite (proj2 (Z.ltb_ge _ 0)) by lia.
    by rewrite (proj2 (Z.leb_gt _ _)) by lia.
Qed.

(** X12.  [a[i]] for an [int] raises [IndexError] exactly when [i < -len(a)]
    or [i >= len(a)]; inside these bounds an index [i >= 0] is the [i]-th
    record and [i - len(a)] names the same record. *)
Theorem getitem_int_bounds (self : t) (i : Z) :
  let n := Z.of_nat (length (_transactions_log self)) in
  (getitem_int self i = None <-> i < - n \/ n <= i)
  /\ (0 <= i < n ->
      getitem_int self i = _transactions_log self !! Z.to_nat i
      /\ is_Some (getitem_int self i)
      /\ getitem_int self (i - n) = getitem_int self i).
Proof.
  cbn zeta. split.
  - destruct (Z.lt_ge_cases i 0) as [Hi | Hi].
    + rewrite getitem_int_neg by done.
      destruct (Z.ltb_spec i (- Z.of_nat (length (_transactions_log self))));
        [split; [lia | done] |].
      rewrite lookup_ge_None. lia.
    + rewrite getitem_int_nonneg by done. rewrite lookup_ge_None. lia.
  - intros Hi. rewrite getitem_int_nonneg by lia. split; [done |]. split.
    + apply lookup_lt_is_Some. lia.
    + rewrite getitem_int_neg by lia.
      rewrite (proj2 (Z.ltb_ge _ _)) by lia. f_equal. lia.
Qed.

Lemma getitem_int_bounds_witness :
  let a := fst (do_calls (fst (__init__ "Guido" (Some (PyInt 10000))
                                 account_number))
                  [Deposit (PyInt 500) "t1"; Withdraw (PyInt 3000) "t2"]) in
  getitem_int a (-1) = getitem_int a 1
  /\ getitem_int a 1
     = Some (Txn DEBIT "t2" (PyInt 10500) (PyInt (-3000)) (PyInt 7500))
  /\ getitem_int a 2 = None /\ getitem_int a (-3) = None.
Proof.
  cbn zeta.
  pose proof (getitem_int_bounds
                (fst (do_calls
                        (fst (__init__ "Guido" (Some (PyInt 10000))
                                account_number))
                        [Deposit (PyInt 500) "t1"; Withdraw (PyInt 3000) "t2"]))
                1)
    as [_ H].
  destruct H as (_ & _ & H); [vm_compute; split; [discriminate | reflexivity] |].
  split; [exact H |]. repeat split.
Defined.

(** X13.  [reversed(a)[i]] is [a[-1 - i]] for every [i < len(a)]. *)
Theorem reversed_is_negative_indexing (self : t) (i : nat) :
  (i < length (_transactions_log self))%nat ->
  __reversed__ self !! i = getitem_int self (- 1 - Z.of_nat i).
Proof.
  intros Hi. unfold __reversed__.
  rewrite list_reversed_reverse, reverse_lookup by done.
  rewrite getitem_int_neg by lia.
  rewrite (proj2 (Z.ltb_ge _ _)) by lia. f_equal. lia.
Qed.

Lemma reversed_is_negative_indexing_witness :
  let a := fst (do_calls (fst (__init__ "Guido" (Some f10000) account_number))
                  [Deposit f500 "t1"; Withdraw f3000 "t2"]) in
  __reversed__ a !! 1%nat = getitem_int a (-2).
Proof.
  cbn zeta.
  apply (reversed_is_negative_indexing
           (fst (do_calls (fst (__init__ "Guido" (Some f10000) account_number))
                   [Deposit f500 "t1"; Withdraw f3000 "t2"])) 1).
  vm_compute. lia.
Defined.

(** X14.  After a call that returned [True], [a[-1]] is the record of that
    call: its kind and signed amount are those of the call and its
    balance-after is the balance now, the balance at the call with the amount
    added (deposit) or subtracted (withdrawal).  When balance and amount are
    [int]s its balance-before is the balance at the call. *)
Theorem last_record_is_latest (self : t) (c : call) :
  snd (do_call self c) = Return true ->
  let self' := fst (do_call self c) in
  exists x : txn,
    getitem_int self' (- 1) = Some x
    /\ kind x = kind_of c
    /\ amount x = signed c
    /\ after x = _balance self'
    /\ apply_call c (_balance self) = Return (after x)
    /\ (is_int (_balance self) = true -> int_call c = true ->
        before x = _balance self).
Proof.
  intros Hr. cbn zeta. pose proof (do_call_step self c) as H.
  destruct (step c (_balance self)) as [[b x] |] eqn:Es.
  - rewrite H. cbn [fst]. exists x.
    destruct (step_Some c _ _ _ Es) as (Ea & Ek & Eam & Eaf & Hb).
    split.
    + rewrite getitem_int_neg by lia. cbn. rewrite length_app. cbn.
      rewrite (proj2 (Z.ltb_ge _ _)) by lia.
      replace (Z.to_nat (-1 + Z.of_nat (length (_transactions_log self) + 1)))
        with (length (_transactions_log self) + 0)%nat by lia.
      by rewrite lookup_app_r, Nat.add_0_r, Nat.sub_diag by lia.
    + cbn. rewrite Eaf. do 4 (split; [done |]).
      intros Hi Hc. destruct (_balance self) as [z |]; [| done].
      destruct c as [[y |] now | [y |] now]; try done; cbn in Ea;
        injection Ea as <-; destruct Hb as (_ & Hb & _); cbn in Hb;
        injection Hb as <-; f_equal; lia.
  - destruct H as [_ H]. by rewrite Hr in H.
Qed.

Lemma last_record_is_latest_witness :
  exists x : txn,
    getitem_int
      (fst (do_call (fst (__init__ "Meghna" None account_number))
              (Withdraw f100 "t1"))) (-1) = Some x
    /\ kind x = DEBIT /\ amount x = py_neg f100.
Proof.
  destruct (last_record_is_latest
              (fst (__init__ "Meghna" None account_number))
              (Withdraw f100 "t1") ltac:(computed))
    as (x & H1 & H2 & H3 & _).
  exists x. split; [exact H1 |]. split; [exact H2 | exact H3].
Defined.

(** ** Constructions in a process *)

Lemma exec_counts (p : Process.t) (s : Process.stmt) :
  length (Process.objects (Process.exec p s))
  = (length (Process.objects p) + constructions [s])%nat
  /\ Process.account_number (Process.exec p s)
     = Process.account_number p + Z.of_nat (constructions [s]).
Proof.
  destruct s as [nm bal | k x now | k x now | k x now | k x now
                 | i j | i j]; cbn.
  - rewrite length_app. cbn. lia.
  - rewrite length_alter. lia.
  - rewrite length_alter. lia.
  - destruct (Process.objects p !! k) as [a0 |]; cbn; [| lia].
    destruct (__iadd__ a0 x now (Process.stdout p)) as [[a1 out] r]. cbn.
    rewrite length_insert. lia.
  - destruct (Process.objects p !! k) as [a0 |]; cbn; [| lia].
    destruct (__isub__ a0 x now (Process.stdout p)) as [[a1 out] r]. cbn.
    rewrite length_insert. lia.
  - destruct (Process.objects p !! i), (Process.objects p !! j); cbn; lia.
  - destruct (Process.objects p !! i), (Process.objects p !! j); cbn; lia.
Qed.

Lemma constructions_cons (s : Process.stmt) (prog : list Process.stmt) :
  constructions (s :: prog) = (constructions [s] + constructions prog)%nat.
Proof. by destruct s. Qed.

(** X15.  Only constructing an account moves the class attribute or adds an
    object: after any program the number of objects has grown by the number
    of [Account(...)] statements in it and the class attribute by the same
    number, whatever deposits, withdrawals and comparisons it holds. *)
Theorem counter_counts_constructions (prog : list Process.stmt) :
  forall p : Process.t,
    length (Process.objects (Process.run p prog))
    = (length (Process.objects p) + constructions prog)%nat
    /\ Process.account_number (Process.run p prog)
       = Process.account_number p + Z.of_nat (constructions prog).
Proof.
  induction prog as [| s prog IH]; intros p.
  - cbn. split; lia.
  - cbn [Process.run foldl]. fold (Process.run (Process.exec p s) prog).
    destruct (IH (Process.exec p s)) as [-> ->].
    destruct (exec_counts p s) as [-> ->].
    rewrite (constructions_cons s prog). split; lia.
Qed.

(** ** More on the passbook writer *)

Import TransactionWriter.

(** X16.  When [open] raises, the [with] statement raises the same exception
    and nothing else happens: the body does not run, [__exit__] is not
    called, nothing is printed and no file object is made. *)
Theorem open_failure_skips_everything (name mode : string)
    (body : option nat -> list action) (w : world) :
  openable w name mode = false ->
  with_ name mode body w = (w, Raise (open_error w name mode))
  /\ snd (py_open name mode w) = Raise (open_error w name mode).
Proof.
  intros Ho. unfold with_, __enter__, py_open. cbn. by rewrite Ho.
Qed.

Lemma open_failure_skips_everything_witness :
  let w := World [] [] (fun _ mode => String.eqb mode "w")
             (fun _ mode => if String.eqb mode "r" then "FileNotFoundError"
                            else "ValueError") in
  with_ "passbookA.txt" "rw" (fun f => [Write f "x"]) w
  = (w, Raise "ValueError").
Proof.
  cbn zeta.
  apply (open_failure_skips_everything "passbookA.txt" "rw"
           (fun f => [Write f "x"])
           (World [] [] (fun _ mode => String.eqb mode "w")
              (fun _ mode => if String.eqb mode "r" then "FileNotFoundError"
                             else "ValueError"))).
  reflexivity.
Defined.







(** ** Remarks *)

(** The driver's calls on the first account: 10000.00, then [+= 500.00],
    [-= 3000.00], [+= 1000.00], [-= 2000.00]. *)
Example driver_run :
  let p := Process.run Process.start
             [Process.New "Guido" (Some f10000);
              Process.IAdd 0 f500 "t1"; Process.ISub 0 f3000 "t2";
              Process.IAdd 0 f1000 "t3"; Process.ISub 0 f2000 "t4";
              Process.New "Meghna" (Some f5000);
              Process.Gt 0 1; Process.Lt 0 1] in
  (Account._balance <$> Process.objects p) = [f6500; f5000]
  /\ (Account.__len__ <$> Process.objects p) = [4%nat; 0%nat]
  /\ Process.stdout p =
       ["Depositing using dunder ..."; "Withdrawing using dunder ...";
        "Depositing using dunder ..."; "Withdrawing using dunder ...";
        "Guido 's balance is greater."; "Meghna 's balance is lesser."].
Proof. cbn zeta. split; [computed |]. split; computed. Qed.

(** On equal balances the [else] branches run: [a < b] reports [b] as the
    lesser and [a > b] reports [b] as the greater. *)
Example strict_comparisons_on_equal_balances :
  let a := fst (Account.__init__ "Guido" (Some f5000) Account.account_number) in
  let b := fst (Account.__init__ "Meghna" (Some f5000)
                  (Account.account_number + 1)) in
  snd (Account.__lt__ a b []) = ["Meghna 's balance is lesser."]
  /\ snd (Account.__gt__ a b []) = ["Meghna 's balance is greater."].
Proof. cbn zeta. split; computed. Qed.

(** The binary64 operations of the model agree with the machine's on the
    values of the counterexamples. *)
Example model_agrees_with_machine :
  float_lit (0x1.999999999999ap-4 + 0x1.999999999999ap-3)%float
  = PyFloat (SFadd prec emax (Prim2SF 0x1.999999999999ap-4%float)
               (Prim2SF 0x1.999999999999ap-3%float))
  /\ float_lit (0x1.3333333333334p-2 - 0x1.999999999999ap-3)%float
     = PyFloat (SFsub prec emax (Prim2SF 0x1.3333333333334p-2%float)
                  (Prim2SF 0x1.999999999999ap-3%float))
  /\ float_lit (0x1.ccccccccccccdp-1 - 0x1.999999999999ap-3)%float
     = PyFloat (SFsub prec emax (Prim2SF 0x1.ccccccccccccdp-1%float)
                  (Prim2SF 0x1.999999999999ap-3%float))
  /\ float_lit (500 - (-0x1p-70))%float
     = PyFloat (SFsub prec emax (Prim2SF 500%float)
                  (Prim2SF (-0x1p-70)%float)).
Proof. split; [computed |]. split; [computed |]. split; computed. Qed.

(** A deposit of NaN passes the test [amount <= 0] and makes the balance NaN;
    a default account raises [OverflowError] on an [int] amount of
    [10 ** 400] and rounds [2 ** 53 + 1]. *)
Example edge_amounts :
  let a := fst (Account.__init__ "Meghna" None Account.account_number) in
  Account.deposit a nan "t1"
  = (booked a nan [Txn CREDIT "t1" nan nan nan], Return true)
  /\ Account.deposit a (PyInt (10 ^ 400)) "t1" = (a, Raise "OverflowError")
  /\ Account.withdraw a (PyInt (10 ^ 400)) "t1" = (a, Raise "OverflowError")
  /\ Account._balance (fst (Account.deposit a (PyInt (2 ^ 53 + 1)) "t1"))
     = float_lit 9007199254741492%float.
Proof.
  cbn zeta. split; [computed |]. split; [computed |]. split; computed.
Qed.
